(** * l3fw_cluster: reconciling a firewall cluster against its playbook

    A shallow embedding of [library/l3fw_cluster.py] and the properties of
    its desired-state model, validation, route cleanup, general settings
    and BGP reconcilers.

    Python dictionaries are finite maps ([gmap]), Python sets are [gset]s,
    exceptions are the [Raise] alternative of [result], and the calls the
    module sends to the management server are collected in a trace. *)

From stdpp Require Import base option list strings gmap pretty.

Open Scope string_scope.
Open Scope list_scope.

(** ** Python values and exceptions *)

(** The scalars a YAML playbook can hold. *)
Inductive pyval :=
  | PNone
  | PBool (b : bool)
  | PInt (z : Z)
  | PStr (s : string).

Global Instance pyval_eq_dec : EqDecision pyval.
Proof. solve_decision. Defined.

Global Instance pyval_inhabited : Inhabited pyval := populate PNone.

(** [str(value)] *)
Definition py_str (v : pyval) : string :=
  match v with
  | PNone => "None"
  | PBool true => "True"
  | PBool false => "False"
  | PInt z => pretty z
  | PStr s => s
  end.

(** [bool(value)] *)
Definition truthy (v : pyval) : bool :=
  match v with
  | PNone => false
  | PBool b => b
  | PInt z => negb (z =? 0)%Z
  | PStr s => negb (String.eqb s "")
  end.

(** [a == b]; a bool compares as the integer 0 or 1. *)
Definition py_eq (a b : pyval) : bool :=
  match a, b with
  | PNone, PNone => true
  | PBool x, PBool y => Bool.eqb x y
  | PInt x, PInt y => (x =? y)%Z
  | PBool x, PInt y | PInt y, PBool x => (Z.b2z x =? y)%Z
  | PStr x, PStr y => String.eqb x y
  | _, _ => false
  end.

(** The messages of [self.fail(msg=...)]. *)
Inductive fail_msg :=
  | NoInterfaces
      (* You must provide at least one interface configuration ... *)
  | InterfaceIdRequired
      (* interface_id is required for all interface definitions *)
  | NodeMissingField (interface : string)
      (* Node missing required field. Required fields are: %s, interface: %s;
         [interface] is the repr of the interface the message ends with *)
  | MgmtUndefined (primary_mgt : string)
      (* Management interface is not defined. ... on interface: %s *)
  | InvalidAntispoofingType (typeof : string)
  | MissingAntispoofing (missing : list (string * string))
  | AnnouncedNotDict    (* not raised here: the inner values are dicts by type *)
  | InvalidAnnouncedType (typeof : string)
  | AnnouncedRequiresName
  | MissingAnnounced (missing : list (string * string))
  | ASRequiresNameAndNumber
  | PeeringRequiresName
  | PeeringMissingNextHop
  | MissingPeers (missing : list (string * string)).

Inductive exn :=
  | AttributeError (attr : string)
  | UnboundLocalError (var : string)
  | TypeError (what : string)
  | ModuleFail (msg : fail_msg).   (* self.fail(msg=...) ends the run *)

Inductive result (A : Type) :=
  | Ok (a : A)
  | Raise (e : exn).
Arguments Ok {A} a.
Arguments Raise {A} e.

Global Instance result_ret : MRet result := λ A a, Ok a.
Global Instance result_bind : MBind result := λ A B f m,
  match m with
  | Ok a => f a
  | Raise e => Raise e
  end.

Global Instance result_fmap : FMap result := λ A B f m,
  match m with
  | Ok a => Ok (f a)
  | Raise e => Raise e
  end.

(** [for x in l] loops whose body can raise. *)
Fixpoint for_each {A} (body : A → result unit) (l : list A) : result unit :=
  match l with
  | [] => Ok ()
  | x :: l => _ ← body x; for_each body l
  end.

(** [[x for x in l if keep x]] *)
Fixpoint filterM {A} (keep : A → result bool) (l : list A) : result (list A) :=
  match l with
  | [] => Ok []
  | x :: l =>
      b ← keep x;
      r ← filterM keep l;
      mret (if b : bool then x :: r else r)
  end.

(** [[f x for x in l]] *)
Fixpoint mapM {A B} (f : A → result B) (l : list A) : result (list B) :=
  match l with
  | [] => Ok []
  | x :: l => y ← f x; r ← mapM f l; mret (y :: r)
  end.

(** [for x in l: if test x: return x], falling off the end returns None. *)
Fixpoint first_match {A} (test : A → result bool) (l : list A)
  : result (option A) :=
  match l with
  | [] => Ok None
  | x :: l => b ← test x; if b : bool then Ok (Some x) else first_match test l
  end.

(** ** Desired-state model *)

(** A node entry of the playbook: a dict of scalars. *)
Abbreviation node := (gmap string pyval).

(** One interface entry of the playbook.  The entry under the key [nodes]
    is the one that is not a scalar; it is kept in [def_nodes] and
    [def_scalars] holds every other entry of the dict. *)
Record interface_def := {
  def_scalars : gmap string pyval;
  def_nodes : option (list node);
}.

(** The instance of [YamlInterface]: its [__dict__], with the [nodes]
    attribute apart. *)
Record YamlInterface := {
  attrs : gmap string pyval;
  nodes : list node;
}.

Global Instance YamlInterface_eq_dec : EqDecision YamlInterface.
Proof. solve_decision. Defined.

Module Yaml.

(** The attributes [__init__] presets to None. *)
Definition init_attrs : gmap string pyval :=
  <["cluster_virtual" := PNone]> (
  <["interface_id" := PNone]> (
  <["macaddress" := PNone]> (
  <["network_value" := PNone]> (
  <["vlan_id" := PNone]> (
  <["zone_ref" := PNone]> ∅))))).

(** [setattr(self, name, str(value))] over the items of the dict. *)
Definition set_scalars (d : gmap string pyval) (self : gmap string pyval)
  : gmap string pyval :=
  map_fold (λ name value self, <[name := PStr (py_str value)]> self) self d.

(** [YamlInterface.__init__] *)
Definition init (d : interface_def) : YamlInterface :=
  let self := set_scalars (def_scalars d) init_attrs in
  let cvi_mode :=
    if truthy (self !!! "cluster_virtual") then PStr "packetdispatch"
    else PNone in
  {| attrs := <["cvi_mode" := cvi_mode]> self;
     nodes := default [] (def_nodes d) |}.

(** [self.name] *)
Definition getattr (self : YamlInterface) (name : string) : result pyval :=
  match attrs self !! name with
  | Some v => Ok v
  | None => Raise (AttributeError name)
  end.

(** [delattr(self, name)] *)
Definition delattr (self : YamlInterface) (name : string)
  : result YamlInterface :=
  match attrs self !! name with
  | Some _ => Ok {| attrs := delete name (attrs self); nodes := nodes self |}
  | None => Raise (AttributeError name)
  end.

(** [__len__] *)
Definition len (self : YamlInterface) : nat := length (nodes self).

(** [is_vlan] *)
Definition is_vlan (self : YamlInterface) : result bool :=
  v ← getattr self "vlan_id"; mret (truthy v).

(** [get_nodeid] *)
Definition get_nodeid (self : YamlInterface) (nodeid : pyval) : option node :=
  List.find (λ n : node, py_eq (default PNone (n !! "nodeid")) nodeid)
    (nodes self).

(** [as_dict]: [vars(self)] is the instance dictionary itself, so the
    value returned is the state of the object after the call. *)
Definition as_dict (self : YamlInterface) : result YamlInterface :=
  vlan ← is_vlan self;
  if vlan : bool then Ok self else delattr self "vlan_id".

(** [__repr__] *)
Definition repr (self : YamlInterface) : result string :=
  i ← getattr self "interface_id";
  v ← getattr self "vlan_id";
  mret ("Interface(interface_id=" +:+ py_str i +:+ ", vlan_id="
          +:+ py_str v +:+ ")").

End Yaml.

(** [Interfaces]: the container holds the raw definitions and builds a
    fresh [YamlInterface] for each of them on every iteration. *)
Module Interfaces.

(** [__iter__] *)
Definition iter (self : list interface_def) : list YamlInterface :=
  Yaml.init <$> self.

(** [vlan_ids] *)
Definition vlan_ids (self : list interface_def) : result (list pyval) :=
  kept ← filterM (λ itf, v ← Yaml.getattr itf "vlan_id"; mret (truthy v))
          (iter self);
  mapM (λ itf, Yaml.getattr itf "vlan_id") kept.

(** [get_vlan] *)
Definition get_vlan (self : list interface_def) (vlan_id : pyval)
  : result (option YamlInterface) :=
  first_match
    (λ interface, v ← Yaml.getattr interface "vlan_id";
                  mret (py_eq v vlan_id))
    (iter self).

(** [get] *)
Definition get (self : list interface_def) (interface_id : pyval)
  : result (option YamlInterface) :=
  first_match
    (λ interface, v ← Yaml.getattr interface "interface_id";
                  mret (py_eq v (PStr (py_str interface_id))))
    (iter self).

End Interfaces.

(** ** Module parameters *)

(** The inner dict of an [announced_network] entry. *)
Record announced_def := {
  ann_name : option string;
  ann_route_map : option string;
}.

(** The [autonomous_system] dict. *)
Record as_def := {
  as_name : option string;
  as_number : option pyval;
  as_comment : option string;
}.

(** An entry of [bgp_peering]. *)
Record peering_def := {
  peer_name : option string;
  external_bgp_peer : option string;
  peer_engine : option string;
  peer_interface_id : option string;
  peer_network : option string;
}.

(** The [bgp] dict; a key that is absent is [None].  Dicts whose iteration
    order shows in the calls are kept as lists of items. *)
Record bgp_def := {
  bgp_enabled : option bool;
  bgp_router_id : option string;
  bgp_profile : option string;
  antispoofing_network : option (list (string * list string));
  announced_network : option (list (list (string * announced_def)));
  autonomous_system : option as_def;
  bgp_peering : option (list peering_def);
}.

(** [bool(self.bgp)] on a dict that is given: does it have a key at all. *)
Definition bgp_nonempty (b : bgp_def) : bool :=
  bool_decide (is_Some (bgp_enabled b)) || bool_decide (is_Some (bgp_router_id b))
  || bool_decide (is_Some (bgp_profile b))
  || bool_decide (is_Some (antispoofing_network b))
  || bool_decide (is_Some (announced_network b))
  || bool_decide (is_Some (autonomous_system b))
  || bool_decide (is_Some (bgp_peering b)).

(** The attributes [exec_module] sets on [self] from the module
    parameters, as far as the code below reads them. *)
Record module_params := {
  name : string;
  cluster_mode : string;
  interfaces : list interface_def;
  domain_server_address : list string;
  location : option string;
  bgp : option bgp_def;
  default_nat : option bool;
  antivirus : option bool;
  file_reputation : option bool;
  primary_mgt : string;
  skip_interfaces : bool;
  state : string;
  check_mode : bool;
}.

(** The playbook before the argument specification of [__init__] is
    applied: an option left out of the playbook is [None]. *)
Record playbook_args := {
  pb_name : string;
  pb_cluster_mode : option string;
  pb_interfaces : option (list interface_def);
  pb_domain_server_address : option (list string);
  pb_location : option string;
  pb_bgp : option bgp_def;
  pb_default_nat : option bool;
  pb_antivirus : option bool;
  pb_file_reputation : option bool;
  pb_primary_mgt : option string;
  pb_skip_interfaces : option bool;
  pb_state : option string;
}.

(** What [default=] in an argument specification does to an option the
    playbook leaves out. *)
Definition with_default {A} (dflt : A) (given : option A) : A :=
  default dflt given.

(** [module_args] of [__init__], applied to a playbook: an option with a
    [default=] takes it when it is left out, one without stays None. *)
Definition module_args (pb : playbook_args) (check : bool) : module_params :=
  {| name := pb_name pb;
     cluster_mode := with_default "standby" (pb_cluster_mode pb);
     interfaces := with_default [] (pb_interfaces pb);
     domain_server_address := with_default [] (pb_domain_server_address pb);
     location := pb_location pb;
     bgp := pb_bgp pb;
     default_nat := Some (with_default false (pb_default_nat pb));
     antivirus := Some (with_default false (pb_antivirus pb));
     file_reputation := Some (with_default false (pb_file_reputation pb));
     primary_mgt := with_default "0" (pb_primary_mgt pb);
     skip_interfaces := with_default false (pb_skip_interfaces pb);
     state := with_default "present" (pb_state pb);
     check_mode := check |}.

(** [node_req] of [exec_module] *)
Definition node_req : list string := ["address"; "network_value"; "nodeid"].

(** [self.fail(msg=...)] *)
Definition fail {A} (m : fail_msg) : result A := Raise (ModuleFail m).

(** ** Reference cache *)

(** Modelled from the spec: [stonesoft_util.Cache], the element reference
    cache.  It maps a (type, name) pair to the handle the management
    server resolved it to and collects the pairs that did not resolve in
    [missing]; [smc] is the server's element table. *)
Record Cache := {
  resolved : gmap (string * string) string;
  missing : list (string * string);
}.

Module CacheOps.

(** Modelled from the spec: [Cache()], nothing resolved and nothing
    missing. *)
Definition new : Cache := {| resolved := ∅; missing := [] |}.

(** Modelled from the spec: [_add_entry(typeof, value)] resolves one
    reference on the server and records the handle, or the pair among the
    missing. *)
Definition add_entry (smc : gmap (string * string) string)
    (c : Cache) (typeof value : string) : Cache :=
  match smc !! (typeof, value) with
  | Some href =>
      {| resolved := <[(typeof, value) := href]> (resolved c);
         missing := missing c |}
  | None =>
      {| resolved := resolved c; missing := missing c ++ [(typeof, value)] |}
  end.

(** Modelled from the spec: [add(d)] resolves every name of a dict from
    type to names. *)
Definition add (smc : gmap (string * string) string)
    (c : Cache) (d : list (string * list string)) : Cache :=
  foldl (λ c '(typeof, values), foldl (λ c v, add_entry smc c typeof v) c values)
    c d.

(** Modelled from the spec: [get(typeof, name)], the handle or None. *)
Definition get (c : Cache) (typeof : string) (value : option string)
  : option string :=
  v ← value; resolved c !! (typeof, v).

End CacheOps.

(** [x.href] on what [cache.get] returned. *)
Definition href (x : option string) : result string :=
  match x with
  | Some h => Ok h
  | None => Raise (AttributeError "href")
  end.

(** ** Validation of the playbook: the head of [exec_module] *)

(** [d.setdefault(k, []).append(v)] on a dict kept as a list of items. *)
Fixpoint setdefault_append (k v : string) (d : list (string * list string))
  : list (string * list string) :=
  match d with
  | [] => [(k, [v])]
  | (k', vs) :: d =>
      if decide (k' = k) then (k', vs ++ [v]) :: d
      else (k', vs) :: setdefault_append k v d
  end.

(** [valid] of the two validators *)
Definition valid_types : list string := ["network"; "group"; "host"].

(** [validate_antispoofing_network]; the values are lists by their type,
    so the test that a value can be iterated always passes. *)
Definition validate_antispoofing_network (s : list (string * list string))
  : result unit :=
  for_each (λ '(typeof, _),
      if bool_decide (typeof ∈ valid_types) then Ok ()
      else fail (InvalidAntispoofingType typeof)) s.

(** The body of the loops of [validate_and_extract_announced] for one item
    of an entry; the inner values are dicts by their type, so the
    [isinstance] test always passes. *)
Definition extract_announced (acc : result (list (string * list string)))
    (item : string * announced_def) : result (list (string * list string)) :=
  let '(typeof, dict_value) := item in
  for_cache ← acc;
  if negb (bool_decide (typeof ∈ valid_types))
  then fail (InvalidAnnouncedType typeof)
  else match ann_name dict_value with
       | None => fail AnnouncedRequiresName
       | Some nm =>
           let for_cache :=
             match ann_route_map dict_value with
             | Some rm => setdefault_append "route_map" rm for_cache
             | None => for_cache
             end in
           Ok (setdefault_append typeof nm for_cache)
       end.

(** [validate_and_extract_announced] *)
Definition validate_and_extract_announced
    (s : list (list (string * announced_def)))
  : result (list (string * list string)) :=
  foldl (λ acc announced, foldl extract_announced acc announced) (Ok []) s.

(** Lines 712-715: one node of an interface. *)
Definition check_node (interface : YamlInterface) (n : node) : result unit :=
  if forallb (λ k, bool_decide (is_Some (n !! k))) node_req then Ok ()
  else r ← Yaml.repr interface; fail (NodeMissingField r).

(** Lines 708-715: one interface of the playbook. *)
Definition check_interface (interface : YamlInterface) : result unit :=
  i ← Yaml.getattr interface "interface_id";
  if negb (truthy i) then fail InterfaceIdRequired
  else for_each (check_node interface) (nodes interface).

(** [bool(mgmt_interface)]: the class defines [__len__], so an interface
    without nodes is false like None is. *)
Definition yaml_truthy (o : option YamlInterface) : bool :=
  match o with
  | None => false
  | Some i => negb (Nat.eqb (Yaml.len i) 0)
  end.

(** Lines 699-721: only when the engine does not exist yet. *)
Definition validate_interfaces (self : module_params) : result YamlInterface :=
  if bool_decide (interfaces self = []) then fail NoInterfaces else
  _ ← for_each check_interface (Interfaces.iter (interfaces self));
  mgmt_interface ← Interfaces.get (interfaces self) (PStr (primary_mgt self));
  match mgmt_interface with
  | Some m => if yaml_truthy mgmt_interface then Ok m
              else fail (MgmtUndefined (primary_mgt self))
  | None => fail (MgmtUndefined (primary_mgt self))
  end.

(** Lines 749-758: one entry of [bgp_peering]. *)
Definition check_peer (smc : gmap (string * string) string)
    (acc : result Cache) (peer : peering_def) : result Cache :=
  cache ← acc;
  if negb (bool_decide (is_Some (peer_name peer))) then fail PeeringRequiresName
  else match external_bgp_peer peer, peer_engine peer with
       | None, None => fail PeeringMissingNextHop
       | Some p, _ => Ok (CacheOps.add_entry smc cache "external_bgp_peer" p)
       | None, Some e => Ok (CacheOps.add_entry smc cache "single_fw,fw_cluster" e)
       end.

(** Lines 724-763: only when BGP is given and not switched off. *)
Definition validate_bgp (smc : gmap (string * string) string) (b : bgp_def)
  : result Cache :=
  let cache := CacheOps.new in
  let spoofing := default [] (antispoofing_network b) in
  _ ← validate_antispoofing_network spoofing;
  let cache := CacheOps.add smc cache spoofing in
  if negb (bool_decide (missing cache = []))
  then fail (MissingAntispoofing (missing cache)) else
  let networks := default [] (announced_network b) in
  announced_networks ← validate_and_extract_announced networks;
  let cache := CacheOps.add smc cache announced_networks in
  if negb (bool_decide (missing cache = []))
  then fail (MissingAnnounced (missing cache)) else
  match autonomous_system b with
  | None => Raise (TypeError "argument of type 'NoneType' is not iterable")
  | Some as_system =>
      if negb (bool_decide (is_Some (as_name as_system)))
         || negb (bool_decide (is_Some (as_number as_system)))
      then fail ASRequiresNameAndNumber else
      cache ← foldl (check_peer smc) (Ok cache) (default [] (bgp_peering b));
      if negb (bool_decide (missing cache = []))
      then fail (MissingPeers (missing cache))
      else Ok cache
  end.

(** [self.bgp and self.bgp.get('enabled', True)] *)
Definition bgp_wanted (self : module_params) : option bgp_def :=
  match bgp self with
  | Some b => if bgp_nonempty b && default true (bgp_enabled b) then Some b
              else None
  | None => None
  end.

(** Lines 697-763: everything [exec_module] checks before its [try] block.
    [engine] tells whether the cluster was found on the server. *)
Definition validate (smc : gmap (string * string) string)
    (engine : bool) (self : module_params)
  : result (option YamlInterface * option Cache) :=
  if negb (String.eqb (state self) "present") then Ok (None, None) else
  mgmt ← (if negb engine then Some <$> validate_interfaces self else Ok None);
  cache ← match bgp_wanted self with
          | Some b => Some <$> validate_bgp smc b
          | None => Ok None
          end;
  Ok (mgmt, cache).

(** ** What the module reads on the engine *)

(** A network under a routing entry ([vlan_network]). *)
Record route_network := {
  ip : string;
  invalid : bool;
}.

(** An entry of [engine.routing]; iterating it yields its networks. *)
Record route_entry := {
  route_name : string;
  networks : list route_network;
}.

(** A VLAN of a physical interface, as [interface.vlan_interface] yields it
    and as [_parent.data['vlanInterfaces']] stores it. *)
Record remote_vlan := {
  vlan_interface_id : string;         (* '2.4' *)
  vlan_vlan_id : string;              (* '4' *)
  addresses : list (string * string); (* address, network *)
  has_interfaces : bool;
}.

(** An entry of [announced_ne_setting] in the BGP data of the engine. *)
Record announced_setting := {
  announced_ne_ref : option string;
  announced_rm_ref : option string;
}.

(** [engine.bgp] *)
Record bgp_state := {
  status : bool;
  router_id : option string;
  profile_name : string;
  antispoofing_ne_ref : list string;
  announced_ne_setting : list announced_setting;
}.

(** [(_, net, peering)] of [routing.bgp_peerings] *)
Record attached_peering := {
  att_net_ip : string;
  att_peering_name : string;
}.

(** The three settings [update_general] switches. *)
Inductive feature := DefaultNat | FileReputation | Antivirus.

(** The settings [update_general] reads. *)
Record engine_general := {
  feature_status : feature → bool;
  dns : list string;
}.

(** ** Calls that change the server *)

Inductive call :=
  | FirewallCluster_create (cluster : YamlInterface)
      (interfaces : list YamlInterface) (self : module_params)
  | Engine_delete
  | Engine_update
  | Feature_enable (f : feature)
  | Feature_disable (f : feature)
  | Dns_clear                      (* engine.data.update(domain_server_address=[]) *)
  | Dns_add (l : list string)      (* engine.dns.add(...) *)
  | Interface_update (interface_id : string)   (* interface.update() *)
  | Route_delete (route : route_entry)
  | Network_delete (route : route_entry) (vlan_network : route_network)
  | AutonomousSystem_get_or_create (a : as_def)
  | Bgp_disable
  | Bgp_enable (a : as_def) (antispoofing_networks : list string)
      (router_id : string)   (* with announced_networks=[], bgp_profile=None *)
  | Bgp_advertise_network (network : string) (route_map : option string)
  | Add_bgp_peering (bgp_peering : string) (extpeer : option string)
      (network : option string).

(** ** [exec_module] up to the point where the reconcilers take over *)

(** [rest created cache] stands for what runs once the engine is there:
    the reconcilers below, then tags. *)
Definition exec_module (smc : gmap (string * string) string)
    (engine : bool) (self : module_params)
    (rest : bool → option Cache → result (list call))
  : result (list call) :=
  '(mgmt, cache) ← validate smc engine self;
  if String.eqb (state self) "present" then
    match mgmt with
    | Some mgmt_interface =>
        others ← filterM
          (λ intf, i ← Yaml.getattr intf "interface_id";
                   mret (negb (py_eq i (PStr (primary_mgt self)))))
          (Interfaces.iter (interfaces self));
        interfaces ← mapM Yaml.as_dict others;
        cluster ← Yaml.as_dict mgmt_interface;
        if check_mode self then Ok []
        else
          calls ← rest true cache;
          Ok (FirewallCluster_create cluster interfaces self :: calls)
    | None => rest false cache
    end
  else if String.eqb (state self) "absent" then
    Ok (if engine then [Engine_delete] else [])
  else Ok [].

(** ** Route cleanup *)

(** [remove_routes] *)
Definition remove_routes (routing : list route_entry)
    (routes_to_remove : list string) : list call :=
  int_id ← routes_to_remove;
  route ← routing;
  if String.eqb (route_name route) ("VLAN " +:+ int_id) then
    if Nat.ltb 1 (length (networks route)) then
      vlan_network ← networks route;
      if invalid vlan_network then [Network_delete route vlan_network] else []
    else [Route_delete route]
  else [].

(** ** General settings *)

(** One of the three blocks of [update_general]: [desired] is the
    attribute of [self], [status] what the engine reports. *)
Definition toggle (f : feature) (desired : option bool) (status : bool)
  : list call * bool :=
  match desired with
  | Some d =>
      if negb status && d then ([Feature_enable f], true)
      else if status && negb d then ([Feature_disable f], true)
      else ([], false)
  | None => ([], false)
  end.

(** [a ^ b] on sets *)
Definition sym_diff (a b : gset string) : gset string := (a ∖ b) ∪ (b ∖ a).

(** The [domain_server_address] block of [update_general]. *)
Definition update_dns (desired current : list string) : list call * bool :=
  if negb (bool_decide (desired = [])) then
    if negb (bool_decide
               (sym_diff (list_to_set current) (list_to_set desired) = ∅))
    then ([Dns_clear; Dns_add desired], true)
    else ([], false)
  else ([], false).

(** [self.default_nat], [self.file_reputation], [self.antivirus] *)
Definition desired_feature (self : module_params) (f : feature) : option bool :=
  match f with
  | DefaultNat => default_nat self
  | FileReputation => file_reputation self
  | Antivirus => antivirus self
  end.

(** [update_general]: the calls issued and the [changed] it returns. *)
Definition update_general (self : module_params) (engine : engine_general)
  : list call * bool :=
  let step f := toggle f (desired_feature self f) (feature_status engine f) in
  let '(c1, b1) := step DefaultNat in
  let '(c2, b2) := step FileReputation in
  let '(c3, b3) := step Antivirus in
  let '(c4, b4) := update_dns (domain_server_address self) (dns engine) in
  (c1 ++ c2 ++ c3 ++ c4, b1 || b2 || b3 || b4).

(** ** BGP *)

(** [antispoofing_format] *)
Definition antispoofing_format (cache : Cache) (b : bgp_def)
  : result (list string) :=
  mapM (λ '(typeof, value), href (CacheOps.get cache typeof (Some value)))
    ('(typeof, v) ← default [] (antispoofing_network b);
     value ← v; [(typeof, value)]).

(** [announced_network_format]: the pairs (network, route_map). *)
Definition announced_network_format (cache : Cache) (b : bgp_def)
  : result (list (string * option string)) :=
  mapM (λ '(typeof, dict_value),
      let name := CacheOps.get cache typeof (ann_name dict_value) in
      let route_map := CacheOps.get cache "route_map" (ann_route_map dict_value) in
      network ← href name;
      mret (network, route_map))
    (entry ← default [] (announced_network b); entry).

(** [{k: v for k, v in l}]: a later item replaces an earlier one. *)
Definition dict_of (l : list (option string * option string))
  : gmap (option string) (option string) :=
  foldl (λ d '(k, v), <[k := v]> d) ∅ l.

Definition current_dict (bgp : bgp_state) : gmap (option string) (option string) :=
  dict_of ((λ entry, (announced_ne_ref entry, announced_rm_ref entry))
             <$> announced_ne_setting bgp).

Definition new_dict (announced : list (string * option string))
  : gmap (option string) (option string) :=
  dict_of ((λ '(network, route_map), (Some network, route_map)) <$> announced).

(** [update_bgp] *)
Definition update_bgp (cache : Cache) (b : bgp_def) (bgp : bgp_state)
  : result bool :=
  if negb (bool_decide (router_id bgp = Some (default "" (bgp_router_id b))))
  then Ok true else
  if match bgp_profile b with
     | Some p => negb (String.eqb p (profile_name bgp))
     | None => false
     end
  then Ok true else
  spoofing ← antispoofing_format cache b;
  if negb (bool_decide
             (sym_diff (list_to_set (antispoofing_ne_ref bgp))
                       (list_to_set spoofing) = ∅))
  then Ok true else
  announced ← announced_network_format cache b;
  if negb (bool_decide (current_dict bgp = new_dict announced))
  then Ok true
  else Ok false.

(** Lines 844-874 of [exec_module]: the BGP calls and the [changed] flag
    after them.  Whether [get_or_create] had to create the autonomous
    system does not show: [changed] is set after the calls either way. *)
Definition reconcile_bgp (cache : Cache) (self : module_params)
    (engine_bgp : bgp_state) (changed : bool)
  : result (list call * bool) :=
  match bgp self with
  | None => Ok ([], changed)
  | Some b =>
      if negb (bgp_nonempty b) then Ok ([], changed) else
      let enable := default true (bgp_enabled b) in
      '(calls, changed) ←
        (if negb enable && status engine_bgp then Ok ([Bgp_disable], true)
         else if enable then
           needed ← update_bgp cache b engine_bgp;
           if needed : bool then
             match autonomous_system b with
             | None => Raise (AttributeError "get")
             | Some as_system =>
                 spoofing ← antispoofing_format cache b;
                 announced ← announced_network_format cache b;
                 Ok ([AutonomousSystem_get_or_create as_system;
                      Bgp_disable;
                      Bgp_enable as_system spoofing
                        (default "" (bgp_router_id b))]
                     ++ ((λ '(network, route_map),
                            Bgp_advertise_network network route_map)
                           <$> announced),
                     true)
             end
           else Ok ([], changed)
         else Ok ([], changed));
      Ok (calls ++ (if changed : bool then [Engine_update] else []), changed)
  end.

(** [update_bgp_peering]: [bgp_peering] is the name of the peering element,
    [interface_peerings] is [list(routing.bgp_peerings)] of the routing
    node of the entry's interface. *)
Definition update_bgp_peering (cache : Cache) (bgp_peering : string)
    (peering_dict : peering_def) (interface_peerings : list attached_peering)
  : result (list call * bool) :=
  (* None: the name extpeer was never assigned *)
  let extpeer : option (option string) :=
    match external_bgp_peer peering_dict, peer_engine peering_dict with
    | Some p, _ => Some (CacheOps.get cache "external_bgp_peer" (Some p))
    | None, Some e => Some (CacheOps.get cache "single_fw,fw_cluster" (Some e))
    | None, None => None
    end in
  let network := peer_network peering_dict in
  let needs_update :=
    match interface_peerings with
    | [] => true
    | _ =>
        foldl (λ needs_update p,
            if match network with
               | Some n => negb (String.eqb n "") && String.eqb (att_net_ip p) n
               | None => false
               end
            then
              if negb (String.eqb (att_peering_name p) bgp_peering) then true
              else needs_update
            else
              if negb (String.eqb bgp_peering (att_peering_name p)) then true
              else needs_update)
          false interface_peerings
    end in
  if needs_update then
    match extpeer with
    | Some e => Ok ([Add_bgp_peering bgp_peering e network], true)
    | None => Raise (UnboundLocalError "extpeer")
    end
  else Ok ([], false).

(** ** VLANs of an interface that already has some *)

(** [delete_vlan_interface]: the changes pair and the new
    [_parent.data['vlanInterfaces']].  [vlan_str] is assigned on one
    branch only; reading it where it was not raises. *)
Definition delete_vlan_interface (self : remote_vlan)
    (vlanInterfaces : list remote_vlan)
  : result ((bool * bool) * list remote_vlan) :=
  let '(vlan_str, changes) :=
    if negb (bool_decide (addresses self = [])) then (None, (true, true))
    else (Some (vlan_interface_id self), (true, false)) in
  kept ← filterM (λ vlan,
            match vlan_str with
            | Some s => Ok (negb (String.eqb (vlan_interface_id vlan) s))
            | None => Raise (UnboundLocalError "vlan_str")
            end) vlanInterfaces;
  Ok (changes, kept).

Section VlanLoop.

(** The two builders drive the interface builder of the client library;
    the loop only needs what they return and what they leave in
    [vlanInterfaces]. *)
Variable create_cluster_vlan_interface :
  YamlInterface → list remote_vlan → result (bool * list remote_vlan).
Variable update_cluster_vlan_interface :
  remote_vlan → YamlInterface → list remote_vlan
  → result ((bool * bool) * list remote_vlan).

(** Lines 1017-1030: one VLAN of the engine against the playbook. *)
Definition reconcile_vlan (ifs : list interface_def) (vlan : remote_vlan)
    (vlanInterfaces : list remote_vlan)
  : result ((bool * bool) * list remote_vlan) :=
  yaml ← Interfaces.get_vlan ifs (PStr (vlan_vlan_id vlan));
  match yaml with
  | Some yaml =>
      if negb (has_interfaces vlan) then
        '(updated, data) ← create_cluster_vlan_interface yaml vlanInterfaces;
        Ok ((updated, false), data)
      else update_cluster_vlan_interface vlan yaml vlanInterfaces
  | None => delete_vlan_interface vlan vlanInterfaces
  end.

(** Lines 1013-1039: the loop over the VLANs of the interface; it
    returns [needs_update], [routes_to_remove] and the VLANs left. *)
Fixpoint reconcile_vlans (ifs : list interface_def)
    (vlan_interfaces : list remote_vlan) (needs_update : bool)
    (routes_to_remove : list string) (vlanInterfaces : list remote_vlan)
  : result (bool * list string * list remote_vlan) :=
  match vlan_interfaces with
  | [] => Ok (needs_update, routes_to_remove, vlanInterfaces)
  | vlan :: vlan_interfaces =>
      '((updated, network), vlanInterfaces) ←
        reconcile_vlan ifs vlan vlanInterfaces;
      let needs_update := if updated : bool then true else needs_update in
      let routes_to_remove :=
        if updated && network
        then routes_to_remove ++ [vlan_interface_id vlan]
        else routes_to_remove in
      reconcile_vlans ifs vlan_interfaces needs_update routes_to_remove
        vlanInterfaces
  end.

(** Lines 1013-1054: an interface of the engine that holds VLANs.
    [vlan_interfaces] is what [interface.vlan_interface] yields, which is
    also what the interface stores; [changed] is set when the interface was
    updated. *)
Definition update_vlan_collection (routing : list route_entry)
    (ifs : list interface_def) (interface_id : string)
    (vlan_interfaces : list remote_vlan)
  : result (list call * bool) :=
  '(needs_update, routes_to_remove, data) ←
    reconcile_vlans ifs vlan_interfaces false [] vlan_interfaces;
  let interface_vlans := vlan_vlan_id <$> vlan_interfaces in
  vlan_ids ← Interfaces.vlan_ids ifs;
  let missing_vlans :=
    filter (λ x, x ∉ PStr <$> interface_vlans) vlan_ids in
  '(needs_update, data) ←
    foldl (λ acc vlan,
        '(_, data) ← acc;
        yaml ← Interfaces.get_vlan ifs vlan;
        match yaml with
        | Some yaml =>
            '(_, data) ← create_cluster_vlan_interface yaml data;
            Ok (true, data)
        | None => Raise (AttributeError "cluster_virtual")
        end)
      (Ok (needs_update, data)) missing_vlans;
  Ok ((if needs_update : bool then [Interface_update interface_id] else [])
      ++ remove_routes routing routes_to_remove,
      needs_update).

End VlanLoop.

(** * Notions the properties are stated with *)

(** The scalar attributes of an interface spec. *)
Definition scalar_fields : list string :=
  ["interface_id"; "vlan_id"; "cluster_virtual"; "network_value";
   "macaddress"; "zone_ref"].

(** The string an attribute holds after [__init__]. *)
Definition coerced (d : interface_def) (k : string) : pyval :=
  match def_scalars d !! k with
  | Some v => PStr (py_str v)
  | None => PNone
  end.

(** The two calls that change the DNS entries. *)
Definition is_dns_call (c : call) : bool :=
  match c with
  | Dns_clear | Dns_add _ => true
  | _ => false
  end.

(** The part of [update_general] before the DNS block: the three
    feature blocks, their calls and whether one of them changed. *)
Definition toggles (self : module_params) (engine : engine_general)
  : list call * bool :=
  let step f := toggle f (desired_feature self f) (feature_status engine f) in
  ((step DefaultNat).1 ++ (step FileReputation).1 ++ (step Antivirus).1,
   (step DefaultNat).2 || (step FileReputation).2 || (step Antivirus).2).

(** What the playbook says about a feature, before the defaults. *)
Definition playbook_feature (pb : playbook_args) (f : feature) : option bool :=
  match f with
  | DefaultNat => pb_default_nat pb
  | FileReputation => pb_file_reputation pb
  | Antivirus => pb_antivirus pb
  end.


(** The node has no [address], no [network_value] or no [nodeid] key. *)
Definition node_lacks_field (n : node) : Prop :=
  ∃ k, k ∈ node_req ∧ n !! k = None.

(** Some node of the interface lacks a required key. *)
Definition has_incomplete_node (d : interface_def) : Prop :=
  ∃ n, n ∈ default [] (def_nodes d) ∧ node_lacks_field n.


(** Two nodes of one interface carry the same [nodeid]. *)
Definition duplicate_nodeid (d : interface_def) : Prop :=
  ∃ i j n m v, i ≠ j
    ∧ default [] (def_nodes d) !! i = Some n
    ∧ default [] (def_nodes d) !! j = Some m
    ∧ n !! "nodeid" = Some v ∧ m !! "nodeid" = Some v.

(** The route map a list of (network, route map) items gives for a
    network: that of the last item for it. *)
Fixpoint route_map_for (l : list (option string * option string))
    (network : option string) : option (option string) :=
  match l with
  | [] => None
  | (k, v) :: l =>
      match route_map_for l network with
      | Some r => Some r
      | None => if decide (k = network) then Some v else None
      end
  end.

(** The announced networks the engine has, as a list of (network handle,
    route map handle). *)
Definition current_announced (bgp : bgp_state)
  : list (option string * option string) :=
  (λ entry, (announced_ne_ref entry, announced_rm_ref entry))
    <$> announced_ne_setting bgp.

(** The same for a list of (network handle, route map handle) that is to
    be announced. *)
Definition desired_announced (announced : list (string * option string))
  : list (option string * option string) :=
  (λ '(network, route_map), (Some network, route_map)) <$> announced.

(** The antispoofing handles the playbook asks for: under each type each
    name, as the server [smc] resolves it. *)
Definition playbook_antispoofing (smc : gmap (string * string) string)
    (b : bgp_def) : list string :=
  '(typeof, names) ← default [] (antispoofing_network b);
  nm ← names;
  option_list (smc !! (typeof, nm)).

(** The announced networks the playbook asks for: for each item of each
    entry the handle of the named element of its type, with the handle of
    the route map the item names, if it names one. *)
Definition playbook_announced (smc : gmap (string * string) string)
    (b : bgp_def) : list (string * option string) :=
  entry ← default [] (announced_network b);
  '(typeof, dict_value) ← entry;
  option_list (nm ← ann_name dict_value;
               network ← smc !! (typeof, nm);
               Some (network,
                     rm ← ann_route_map dict_value; smc !! ("route_map", rm))).

(** What the spec compares besides the router id: the profile name when
    the playbook gives one, the set of antispoofing handles, the mapping
    from announced network to route map. *)
Definition bgp_settings_differ (smc : gmap (string * string) string)
    (b : bgp_def) (bgp : bgp_state) : Prop :=
  (∃ p, bgp_profile b = Some p ∧ p ≠ profile_name bgp)
  ∨ ¬ (∀ h, h ∈ antispoofing_ne_ref bgp ↔ h ∈ playbook_antispoofing smc b)
  ∨ ¬ (∀ network,
         route_map_for (current_announced bgp) network
         = route_map_for (desired_announced (playbook_announced smc b)) network).

(** The spec's comparison, in its words: the router id of the playbook
    against that of the engine, each as it is given or absent, and the
    other settings. *)
Definition bgp_differs_as_claimed (smc : gmap (string * string) string)
    (b : bgp_def) (bgp : bgp_state) : Prop :=
  router_id bgp ≠ bgp_router_id b ∨ bgp_settings_differ smc b bgp.

(** The comparison with the router id read as the module sends it: a
    playbook without [router_id] asks for the empty string, which an
    engine without a router id does not have. *)
Definition bgp_differs (smc : gmap (string * string) string)
    (b : bgp_def) (bgp : bgp_state) : Prop :=
  router_id bgp ≠ Some (default "" (bgp_router_id b))
  ∨ bgp_settings_differ smc b bgp.

(** The calls that change the BGP configuration of the engine. *)
Definition is_bgp_call (c : call) : bool :=
  match c with
  | AutonomousSystem_get_or_create _ | Bgp_disable | Bgp_enable _ _ _
  | Bgp_advertise_network _ _ => true
  | _ => false
  end.

(** The calls of a full re-establishment. *)
Definition reestablish (as_system : as_def) (spoofing : list string)
    (router : string) (announced : list (string * option string))
  : list call :=
  [AutonomousSystem_get_or_create as_system; Bgp_disable;
   Bgp_enable as_system spoofing router]
  ++ ((λ '(network, route_map), Bgp_advertise_network network route_map)
        <$> announced).

(** The [changed] flag [update_bgp_peering] returned, if it returned. *)
Definition needs_update_of (r : result (list call * bool)) : option bool :=
  match r with
  | Ok (_, changed) => Some changed
  | Raise _ => None
  end.

(** The type has the name in the dict of names. *)
Definition holds (d : list (string * list string)) (typeof nm : string) : Prop :=
  ∃ vs, (typeof, vs) ∈ d ∧ nm ∈ vs.

(** * Playbooks and engines the properties are tried on *)

(** Interface 5, no VLAN, no addresses. *)
Definition flat_interface : interface_def :=
  {| def_scalars := <["interface_id" := PStr "5"]> ∅; def_nodes := None |}.

(** VLAN 3 of interface 2, both ids given as integers. *)
Definition vlan_2_3 : interface_def :=
  {| def_scalars := <["interface_id" := PInt 2]> (<["vlan_id" := PInt 3]> ∅);
     def_nodes := None |}.

(** A routing entry with a stale and a valid network, and one with a
    single network. *)
Definition route_two_networks : route_entry :=
  {| route_name := "VLAN 2.3";
     networks := [ {| ip := "3.3.3.0/24"; invalid := true |};
                   {| ip := "3.3.4.0/24"; invalid := false |} ] |}.

Definition route_one_network : route_entry :=
  {| route_name := "VLAN 2.4";
     networks := [ {| ip := "4.4.4.0/24"; invalid := true |} ] |}.

(** The cleanup for the VLANs 2.3 and 2.4 on these two entries. *)
Definition cleanup_calls : list call :=
  remove_routes [route_two_networks; route_one_network] ["2.3"; "2.4"].

(** A playbook that gives the name of the cluster and nothing else. *)
Definition playbook_minimal : playbook_args :=
  {| pb_name := "mycluster"; pb_cluster_mode := None; pb_interfaces := None;
     pb_domain_server_address := None; pb_location := None; pb_bgp := None;
     pb_default_nat := None; pb_antivirus := None; pb_file_reputation := None;
     pb_primary_mgt := None; pb_skip_interfaces := None; pb_state := None |}.

(** A playbook that gives the DNS addresses as well. *)
Definition playbook_dns (l : list string) : playbook_args :=
  {| pb_name := "mycluster"; pb_cluster_mode := None; pb_interfaces := None;
     pb_domain_server_address := Some l; pb_location := None; pb_bgp := None;
     pb_default_nat := None; pb_antivirus := None; pb_file_reputation := None;
     pb_primary_mgt := None; pb_skip_interfaces := None; pb_state := None |}.

(** An engine with the three features off and the DNS entries [l]. *)
Definition engine_plain (l : list string) : engine_general :=
  {| feature_status := λ _, false; dns := l |}.

(** An engine with default NAT on. *)
Definition engine_nat_on : engine_general :=
  {| feature_status := λ f, match f with DefaultNat => true | _ => false end;
     dns := [] |}.

(** A node entry with its three keys. *)
Definition mk_node (address network_value : string) (nodeid : Z) : node :=
  <["address" := PStr address]> (
  <["network_value" := PStr network_value]> (
  <["nodeid" := PInt nodeid]> ∅)).

(** A management interface whose only node has no [address]. *)
Definition interface_node_without_address : interface_def :=
  {| def_scalars := <["interface_id" := PInt 0]> ∅;
     def_nodes := Some [delete "address" (mk_node "1.1.1.2" "1.1.1.0/24" 1)] |}.

(** The parameters of a run that asks for the cluster with these
    interfaces, management on interface 0, no BGP. *)
Definition params_of (ifs : list interface_def) : module_params :=
  {| name := "mycluster"; cluster_mode := "standby"; interfaces := ifs;
     domain_server_address := []; location := None; bgp := None;
     default_nat := Some false; antivirus := Some false;
     file_reputation := Some false; primary_mgt := "0";
     skip_interfaces := false; state := "present"; check_mode := false |}.


(** The management interface of a two-node cluster, both nodes with
    [nodeid] 1. *)
Definition interface_duplicate_nodeid : interface_def :=
  {| def_scalars := <["interface_id" := PInt 0]> ∅;
     def_nodes := Some [mk_node "1.1.1.2" "1.1.1.0/24" 1;
                        mk_node "1.1.1.3" "1.1.1.0/24" 1] |}.

(** The same with node ids 1 and 2. *)
Definition interface_two_nodes : interface_def :=
  {| def_scalars := <["interface_id" := PInt 0]> ∅;
     def_nodes := Some [mk_node "1.1.1.2" "1.1.1.0/24" 1;
                        mk_node "1.1.1.3" "1.1.1.0/24" 2] |}.

Definition params_two_nodes : module_params :=
  params_of [interface_two_nodes].

Definition params_duplicate_nodeid : module_params :=
  params_of [interface_duplicate_nodeid].

(** A server that knows one network and one external BGP peer. *)
Definition smc_elements : gmap (string * string) string :=
  <[("network", "net-a") := "http://smc/network/1"]> (
  <[("external_bgp_peer", "bgppeer") := "http://smc/external_bgp_peer/7"]> ∅).

Definition autonomous_system_65000 : as_def :=
  {| as_name := Some "mynew"; as_number := Some (PInt 65000);
     as_comment := None |}.

(** A BGP section that announces and protects the network, with the given
    router id. *)
Definition bgp_router (router : string) : bgp_def :=
  {| bgp_enabled := Some true; bgp_router_id := Some router;
     bgp_profile := None;
     antispoofing_network := Some [("network", ["net-a"])];
     announced_network :=
       Some [[("network", {| ann_name := Some "net-a";
                             ann_route_map := None |})]];
     autonomous_system := Some autonomous_system_65000;
     bgp_peering := None |}.

Definition params_bgp (b : bgp_def) : module_params :=
  {| name := "mycluster"; cluster_mode := "standby"; interfaces := [];
     domain_server_address := []; location := None; bgp := Some b;
     default_nat := Some false; antivirus := Some false;
     file_reputation := Some false; primary_mgt := "0";
     skip_interfaces := false; state := "present"; check_mode := false |}.

Definition cache_net_a : Cache :=
  CacheOps.add smc_elements CacheOps.new [("network", ["net-a"])].

(** An engine whose BGP has router id 1.1.1.1 and the same network. *)
Definition engine_bgp_1111 : bgp_state :=
  {| status := true; router_id := Some "1.1.1.1";
     profile_name := "Default BGP Profile";
     antispoofing_ne_ref := ["http://smc/network/1"];
     announced_ne_setting :=
       [{| announced_ne_ref := Some "http://smc/network/1";
           announced_rm_ref := None |}] |}.

(** The same server with a route map. *)
Definition smc_route_map : gmap (string * string) string :=
  <[("route_map", "myroutemap") := "http://smc/route_map/3"]> smc_elements.

(** A BGP section with router id 1.1.1.1 that announces the network under
    the route map. *)
Definition bgp_route_map : bgp_def :=
  {| bgp_enabled := Some true; bgp_router_id := Some "1.1.1.1";
     bgp_profile := None;
     antispoofing_network := Some [("network", ["net-a"])];
     announced_network :=
       Some [[("network", {| ann_name := Some "net-a";
                             ann_route_map := Some "myroutemap" |})]];
     autonomous_system := Some autonomous_system_65000;
     bgp_peering := None |}.

(** The cache after the validation of that section. *)
Definition cache_route_map : Cache :=
  CacheOps.add smc_route_map
    (CacheOps.add smc_route_map CacheOps.new [("network", ["net-a"])])
    [("route_map", ["myroutemap"]); ("network", ["net-a"])].

(** A BGP section that gives no router id, and an engine that has the
    network announced and protected and no router id either. *)
Definition bgp_no_router_id : bgp_def :=
  {| bgp_enabled := Some true; bgp_router_id := None;
     bgp_profile := None;
     antispoofing_network := Some [("network", ["net-a"])];
     announced_network :=
       Some [[("network", {| ann_name := Some "net-a";
                             ann_route_map := None |})]];
     autonomous_system := Some autonomous_system_65000;
     bgp_peering := None |}.

Definition engine_bgp_no_router_id : bgp_state :=
  {| status := true; router_id := None;
     profile_name := "Default BGP Profile";
     antispoofing_ne_ref := ["http://smc/network/1"];
     announced_ne_setting :=
       [{| announced_ne_ref := Some "http://smc/network/1";
           announced_rm_ref := None |}] |}.

(** The calls that set BGP up anew for that section. *)
Definition reestablish_no_router_id : list call :=
  [AutonomousSystem_get_or_create autonomous_system_65000;
   Bgp_disable;
   Bgp_enable autonomous_system_65000 ["http://smc/network/1"] "";
   Bgp_advertise_network "http://smc/network/1" None;
   Engine_update].

(** A peering entry for interface 1 on the given network. *)
Definition peering_on (network : string) : peering_def :=
  {| peer_name := None; external_bgp_peer := Some "bgppeer";
     peer_engine := None; peer_interface_id := Some "1";
     peer_network := Some network |}.

(** The VLANs 2.3 and 2.4 on the engine, with and without an address. *)
Definition vlan_2_3_empty : remote_vlan :=
  {| vlan_interface_id := "2.3"; vlan_vlan_id := "3"; addresses := [];
     has_interfaces := false |}.

Definition vlan_2_4_addressed : remote_vlan :=
  {| vlan_interface_id := "2.4"; vlan_vlan_id := "4";
     addresses := [("4.4.4.1", "4.4.4.0/24")]; has_interfaces := true |}.

Definition vlan_2_3_addressed : remote_vlan :=
  {| vlan_interface_id := "2.3"; vlan_vlan_id := "3";
     addresses := [("3.3.3.1", "3.3.3.0/24")]; has_interfaces := true |}.

Definition vlan_2_4_empty : remote_vlan :=
  {| vlan_interface_id := "2.4"; vlan_vlan_id := "4"; addresses := [];
     has_interfaces := false |}.

Definition route_vlan_2_4 : route_entry :=
  {| route_name := "VLAN 2.4";
     networks := [ {| ip := "4.4.4.0/24"; invalid := false |} ] |}.

(** * Properties *)

(** ** The desired-state model *)

Section YamlFacts.

Implicit Types (d : interface_def) (self : YamlInterface) (k : string).

Lemma set_scalars_lookup (s a : gmap string pyval) k :
  Yaml.set_scalars s a !! k =
    match s !! k with
    | Some v => Some (PStr (py_str v))
    | None => a !! k
    end.
Proof.
  unfold Yaml.set_scalars. revert k.
  apply (map_fold_weak_ind
           (λ r (m : gmap string pyval), ∀ k,
              r !! k = match m !! k with
                       | Some v => Some (PStr (py_str v))
                       | None => a !! k
                       end)).
  - intros k. by rewrite lookup_empty.
  - intros i x m r Hi IH k.
    destruct (decide (i = k)) as [->|Hne].
    + by rewrite !lookup_insert_eq.
    + rewrite !lookup_insert_ne by done. apply IH.
Qed.

Lemma init_attrs_scalar k : k ∈ scalar_fields → Yaml.init_attrs !! k = Some PNone.
Proof.
  unfold scalar_fields. rewrite !elem_of_cons, elem_of_nil.
  intros H; repeat destruct H as [->|H]; try done.
Qed.

(** What [__init__] leaves in an attribute that [__init__] presets. *)
Lemma init_lookup d k :
  k ∈ scalar_fields →
  attrs (Yaml.init d) !! k =
    Some (match def_scalars d !! k with
          | Some v => PStr (py_str v)
          | None => PNone
          end).
Proof.
  intros Hk. unfold Yaml.init; simpl.
  rewrite lookup_insert_ne.
  - rewrite set_scalars_lookup, (init_attrs_scalar _ Hk).
    by destruct (def_scalars d !! k).
  - intros <-. revert Hk. unfold scalar_fields.
    rewrite !elem_of_cons, elem_of_nil.
    intros H. repeat (destruct H as [H|H]; [discriminate|]). done.
Qed.

Lemma getattr_init d k :
  k ∈ scalar_fields →
  Yaml.getattr (Yaml.init d) k =
    Ok (match def_scalars d !! k with
        | Some v => PStr (py_str v)
        | None => PNone
        end).
Proof. intros Hk. unfold Yaml.getattr. by rewrite (init_lookup _ _ Hk). Qed.

Lemma interface_id_field : "interface_id" ∈ scalar_fields.
Proof. unfold scalar_fields. rewrite !elem_of_cons. auto. Qed.

Lemma vlan_id_field : "vlan_id" ∈ scalar_fields.
Proof. unfold scalar_fields. rewrite !elem_of_cons. auto. Qed.

Lemma nodes_init d : nodes (Yaml.init d) = default [] (def_nodes d).
Proof. done. Qed.

Lemma repr_init d :
  ∃ r, Yaml.repr (Yaml.init d) = Ok r.
Proof.
  unfold Yaml.repr.
  rewrite (getattr_init _ _ interface_id_field),
    (getattr_init _ _ vlan_id_field). simpl. eauto.
Qed.

(** Once [vlan_id] is gone from the instance, every reader of it raises. *)
Lemma no_vlan_id_raises self :
  attrs self !! "vlan_id" = None →
  Yaml.getattr self "vlan_id" = Raise (AttributeError "vlan_id")
  ∧ Yaml.is_vlan self = Raise (AttributeError "vlan_id")
  ∧ Yaml.as_dict self = Raise (AttributeError "vlan_id").
Proof.
  intros H. unfold Yaml.as_dict, Yaml.is_vlan, Yaml.getattr.
  by rewrite H.
Qed.

Lemma as_dict_not_vlan self :
  Yaml.is_vlan self = Ok false →
  Yaml.as_dict self =
    Ok {| attrs := delete "vlan_id" (attrs self); nodes := nodes self |}.
Proof.
  unfold Yaml.as_dict. intros Hv. rewrite Hv. simpl.
  unfold Yaml.is_vlan, Yaml.getattr in Hv. unfold Yaml.delattr.
  by destruct (attrs self !! "vlan_id").
Qed.

Lemma is_vlan_init d :
  Yaml.is_vlan (Yaml.init d) =
    Ok (match def_scalars d !! "vlan_id" with
        | Some v => negb (String.eqb (py_str v) "")
        | None => false
        end).
Proof.
  unfold Yaml.is_vlan. rewrite (getattr_init _ _ vlan_id_field).
  by destruct (def_scalars d !! "vlan_id").
Qed.

End YamlFacts.

(** C9: serializing an interface spec that carries no [vlan_id] succeeds once,
    returns the instance dictionary without [vlan_id] (its other attributes
    and its nodes unchanged), and leaves the object itself without that
    attribute: reading [vlan_id], asking [is_vlan] and serializing again
    all raise an attribute error on it. *)
Theorem as_dict_removes_vlan_id (d : interface_def) :
  def_scalars d !! "vlan_id" = None →
  ∃ self',
    Yaml.as_dict (Yaml.init d) = Ok self'
    ∧ attrs self' !! "vlan_id" = None
    ∧ (∀ k, k ≠ "vlan_id" → attrs self' !! k = attrs (Yaml.init d) !! k)
    ∧ nodes self' = nodes (Yaml.init d)
    ∧ Yaml.getattr self' "vlan_id" = Raise (AttributeError "vlan_id")
    ∧ Yaml.is_vlan self' = Raise (AttributeError "vlan_id")
    ∧ Yaml.as_dict self' = Raise (AttributeError "vlan_id").
Proof.
  intros Hd.
  pose proof (is_vlan_init d) as Hv. rewrite Hd in Hv.
  eexists. split; [by apply as_dict_not_vlan|].
  split; [apply lookup_delete_eq|].
  split; [intros k Hk; by apply lookup_delete_ne|].
  split; [done|].
  apply no_vlan_id_raises. apply lookup_delete_eq.
Qed.

Lemma as_dict_removes_vlan_id_witness :
  ∃ self',
    Yaml.as_dict (Yaml.init flat_interface) = Ok self'
    ∧ attrs self' !! "vlan_id" = None
    ∧ (∀ k, k ≠ "vlan_id" → attrs self' !! k = attrs (Yaml.init flat_interface) !! k)
    ∧ nodes self' = nodes (Yaml.init flat_interface)
    ∧ Yaml.getattr self' "vlan_id" = Raise (AttributeError "vlan_id")
    ∧ Yaml.is_vlan self' = Raise (AttributeError "vlan_id")
    ∧ Yaml.as_dict self' = Raise (AttributeError "vlan_id").
Proof. apply (as_dict_removes_vlan_id flat_interface). reflexivity. Defined.

(** ** Lookups in [Interfaces] *)

Section Lookups.

Context {A : Type}.
Implicit Types (l : list A) (t : A → bool).

(** A search whose test cannot raise is [find]. *)
Lemma first_match_find (test : A → result bool) t l :
  (∀ x, x ∈ l → test x = Ok (t x)) →
  first_match test l = Ok (List.find t l).
Proof.
  induction l as [|x l IH]; intros Ht; [done|].
  simpl. rewrite (Ht x) by left. simpl.
  destruct (t x); [done|]. apply IH. intros y Hy. apply Ht. by right.
Qed.

Lemma find_first_hit t l x :
  x ∈ l → t x = true → ∃ y, List.find t l = Some y ∧ y ∈ l ∧ t y = true.
Proof.
  induction l as [|a l IH]; [by rewrite elem_of_nil|].
  rewrite elem_of_cons. intros Hx Htx. simpl.
  destruct (t a) eqn:Hta.
  - exists a. split_and!; [done|by left|done].
  - destruct Hx as [->|Hx]; [congruence|].
    destruct (IH Hx Htx) as (y & ? & ? & ?).
    exists y. split_and!; [done|by right|done].
Qed.

End Lookups.





(** ** Route cleanup *)

(** Every call of [remove_routes] comes from an entry named after one of
    the interface ids, and which call it is depends on how many networks
    the entry has. *)
Lemma elem_of_remove_routes (routing : list route_entry)
    (routes_to_remove : list string) (c : call) :
  c ∈ remove_routes routing routes_to_remove ↔
  ∃ int_id route,
    int_id ∈ routes_to_remove ∧ route ∈ routing
    ∧ route_name route = "VLAN " +:+ int_id
    ∧ (((1 < length (networks route))%nat
        ∧ ∃ n, n ∈ networks route ∧ invalid n = true
               ∧ c = Network_delete route n)
       ∨ ((length (networks route) ≤ 1)%nat ∧ c = Route_delete route)).
Proof.
  unfold remove_routes. rewrite list_elem_of_bind. split.
  - intros (int_id & Hc & Hid). apply list_elem_of_bind in Hc as (route & Hc & Hr).
    exists int_id, route. split_and!; try done;
      destruct (String.eqb_spec (route_name route) ("VLAN " +:+ int_id)) as [Hn|Hn];
      try done; try (by apply elem_of_nil in Hc).
    destruct (Nat.ltb_spec 1 (length (networks route))) as [Hlen|Hlen].
    + left. split; [done|].
      apply list_elem_of_bind in Hc as (n & Hc & Hin). exists n.
      destruct (invalid n); [|by apply elem_of_nil in Hc].
      apply list_elem_of_singleton in Hc. done.
    + right. apply list_elem_of_singleton in Hc. done.
  - intros (int_id & route & Hid & Hr & Hn & Hcase).
    exists int_id. split; [|done]. apply list_elem_of_bind.
    exists route. split; [|done].
    rewrite Hn, String.eqb_refl.
    destruct Hcase as [(Hlen & n & Hin & Hinv & ->)|(Hlen & ->)].
    + apply Nat.ltb_lt in Hlen as ->. apply list_elem_of_bind.
      exists n. split; [|done]. rewrite Hinv. by apply list_elem_of_singleton.
    + apply Nat.ltb_ge in Hlen as ->. by apply list_elem_of_singleton.
Qed.

(** C2: for a route-impacting interface id and a routing entry named
    "VLAN {interface_id}": with more than one network, cleanup deletes a
    network of the entry exactly when it is flagged invalid and does not
    delete the entry; with exactly one network, cleanup deletes the entry as
    a whole and none of its networks singly. *)
Theorem remove_routes_precise (routing : list route_entry)
    (routes_to_remove : list string) (int_id : string) (route : route_entry) :
  int_id ∈ routes_to_remove →
  route ∈ routing →
  route_name route = "VLAN " +:+ int_id →
  let calls := remove_routes routing routes_to_remove in
  ((1 < length (networks route))%nat →
     (∀ n, n ∈ networks route →
           (Network_delete route n ∈ calls ↔ invalid n = true))
     ∧ (∀ r n, Network_delete r n ∈ calls → r = route → n ∈ networks route)
     ∧ Route_delete route ∉ calls)
  ∧ (length (networks route) = 1 →
     Route_delete route ∈ calls
     ∧ ∀ n, Network_delete route n ∉ calls).
Proof.
  intros Hid Hr Hn calls. subst calls. split.
  - intros Hlen. split_and!.
    + intros n Hin. rewrite elem_of_remove_routes. split.
      * intros (i & r & _ & _ & _ & [(_ & n' & _ & Hinv & Heq)|(_ & Heq)]);
          [|discriminate]. by injection Heq as -> ->.
      * intros Hinv. exists int_id, route. split_and!; try done.
        left. split; [done|]. by exists n.
    + intros r n. rewrite elem_of_remove_routes.
      intros (i & r' & _ & _ & _ & [(_ & n' & Hin & _ & Heq)|(_ & Heq)]) ->;
        [|discriminate]. by injection Heq as -> ->.
    + rewrite elem_of_remove_routes.
      intros (i & r & _ & _ & _ & [(_ & n' & _ & _ & Heq)|(Hle & Heq)]);
        [discriminate|]. injection Heq as ->. lia.
  - intros Hlen. split.
    + apply elem_of_remove_routes. exists int_id, route. split_and!; try done.
      right. split; [lia|done].
    + intros n. rewrite elem_of_remove_routes.
      intros (i & r & _ & _ & _ & [(Hlt & n' & _ & _ & Heq)|(_ & Heq)]);
        [|discriminate]. injection Heq as -> ->. lia.
Qed.

Lemma remove_routes_precise_witness :
  (Network_delete route_two_networks {| ip := "3.3.3.0/24"; invalid := true |}
     ∈ cleanup_calls
   ∧ ¬ (Network_delete route_two_networks
          {| ip := "3.3.4.0/24"; invalid := false |} ∈ cleanup_calls)
   ∧ ¬ (Route_delete route_two_networks ∈ cleanup_calls))
  ∧ Route_delete route_one_network ∈ cleanup_calls.
Proof.
  unfold cleanup_calls.
  pose proof (remove_routes_precise [route_two_networks; route_one_network]
                ["2.3"; "2.4"] "2.3" route_two_networks) as H2.
  pose proof (remove_routes_precise [route_two_networks; route_one_network]
                ["2.3"; "2.4"] "2.4" route_one_network) as H1.
  simpl in H1, H2.
  destruct H2 as [H2 _]; [left | left | reflexivity |].
  destruct H1 as [_ H1]; [right; left | right; left | reflexivity |].
  destruct H2 as (Hnet & _ & Hkeep); [simpl; lia|].
  destruct H1 as [Hdel _]; [reflexivity|].
  split_and!.
  - apply Hnet; [left | reflexivity].
  - intros Hc. apply Hnet in Hc; [discriminate | right; left].
  - exact Hkeep.
  - exact Hdel.
Defined.

(** ** General settings *)

Lemma update_general_split (self : module_params) (engine : engine_general) :
  update_general self engine =
    ((toggles self engine).1
       ++ (update_dns (domain_server_address self) (dns engine)).1,
     (toggles self engine).2
       || (update_dns (domain_server_address self) (dns engine)).2).
Proof.
  unfold update_general, toggles.
  destruct (toggle DefaultNat _ _) as [c1 b1], (toggle FileReputation _ _) as [c2 b2],
    (toggle Antivirus _ _) as [c3 b3], (update_dns _ _) as [c4 b4]; simpl.
  by rewrite <-!app_assoc.
Qed.

Lemma elem_of_toggle (f : feature) (desired : option bool) (st : bool) (c : call) :
  c ∈ (toggle f desired st).1 ↔
    (c = Feature_enable f ∧ desired = Some true ∧ st = false)
    ∨ (c = Feature_disable f ∧ desired = Some false ∧ st = true).
Proof.
  destruct desired as [[]|], st; simpl;
    rewrite ?list_elem_of_singleton, ?elem_of_nil;
    intuition (try congruence; try discriminate).
Qed.

Lemma elem_of_toggles (self : module_params) (engine : engine_general) (c : call) :
  c ∈ (toggles self engine).1 ↔
    ∃ f, (c = Feature_enable f ∧ desired_feature self f = Some true
          ∧ feature_status engine f = false)
         ∨ (c = Feature_disable f ∧ desired_feature self f = Some false
            ∧ feature_status engine f = true).
Proof.
  unfold toggles; simpl. rewrite !elem_of_app, !elem_of_toggle. split.
  - intros [H|[H|H]];
      [exists DefaultNat | exists FileReputation | exists Antivirus]; exact H.
  - intros ([] & H); [left | right; left | right; right]; exact H.
Qed.

Lemma toggles_no_dns (self : module_params) (engine : engine_general) (c : call) :
  c ∈ (toggles self engine).1 → is_dns_call c = false.
Proof. rewrite elem_of_toggles. by intros (f & [(-> & _)|(-> & _)]). Qed.

Lemma elem_of_update_dns (desired current : list string) (c : call) :
  c ∈ (update_dns desired current).1 → is_dns_call c = true.
Proof.
  unfold update_dns. repeat case_match; simpl;
    rewrite ?elem_of_cons, ?elem_of_nil; intros Hc;
    repeat (destruct Hc as [->|Hc]; [done|]); done.
Qed.

(** The symmetric difference is empty exactly for equal sets. *)
Lemma sym_diff_empty (a b : gset string) : sym_diff a b = ∅ ↔ a = b.
Proof.
  unfold sym_diff. split.
  - intros H. apply set_eq. intros x.
    assert (x ∉ (a ∖ b) ∪ (b ∖ a)) as Hx by (rewrite H; apply not_elem_of_empty).
    rewrite elem_of_union, !elem_of_difference in Hx.
    destruct (decide (x ∈ a)), (decide (x ∈ b)); tauto.
  - intros ->. apply set_eq. intros x.
    rewrite elem_of_union, !elem_of_difference, elem_of_empty. tauto.
Qed.

Lemma same_addresses (desired current : list string) :
  list_to_set (C := gset string) current = list_to_set desired
  ↔ ∀ a, a ∈ current ↔ a ∈ desired.
Proof.
  rewrite set_eq. by setoid_rewrite elem_of_list_to_set.
Qed.

Lemma update_dns_cases (desired current : list string) :
  (desired ≠ [] → ¬ (∀ a, a ∈ current ↔ a ∈ desired) →
     update_dns desired current = ([Dns_clear; Dns_add desired], true))
  ∧ (desired ≠ [] → (∀ a, a ∈ current ↔ a ∈ desired) →
     update_dns desired current = ([], false))
  ∧ (desired = [] → update_dns desired current = ([], false)).
Proof.
  unfold update_dns. split_and!.
  - intros Hne Hdiff. rewrite bool_decide_eq_false_2 by done. simpl.
    rewrite bool_decide_eq_false_2; [done|].
    rewrite sym_diff_empty, same_addresses. done.
  - intros Hne Hsame. rewrite bool_decide_eq_false_2 by done. simpl.
    rewrite bool_decide_eq_true_2; [done|].
    by rewrite sym_diff_empty, same_addresses.
  - intros ->. done.
Qed.

(** C4, as amended: when the desired DNS list is not empty and differs as a
    set from the engine's, [update_general] ends with clearing the entries
    and adding the whole desired list, and returns changed; when it is not
    empty and equal as a set (in any order), or when it is empty, no DNS
    call is issued and the result is that of the feature toggles alone. *)
Theorem dns_replaced_on_difference (self : module_params)
    (engine : engine_general) :
  let desired := domain_server_address self in
  let current := dns engine in
  (∀ c, c ∈ (toggles self engine).1 → is_dns_call c = false)
  ∧ (desired ≠ [] → ¬ (∀ a, a ∈ current ↔ a ∈ desired) →
       update_general self engine =
         ((toggles self engine).1 ++ [Dns_clear; Dns_add desired], true))
  ∧ (desired ≠ [] → (∀ a, a ∈ current ↔ a ∈ desired) →
       update_general self engine = toggles self engine)
  ∧ (desired = [] → update_general self engine = toggles self engine).
Proof.
  intros desired current.
  destruct (update_dns_cases desired current) as (Hdiff & Hsame & Hempty).
  split_and!.
  - apply toggles_no_dns.
  - intros Hne Hd. rewrite update_general_split.
    fold desired current. rewrite (Hdiff Hne Hd). cbn [fst snd].
    by rewrite orb_true_r.
  - intros Hne Hs. rewrite update_general_split.
    fold desired current. rewrite (Hsame Hne Hs). cbn [fst snd].
    rewrite app_nil_r, orb_false_r. by rewrite <-surjective_pairing.
  - intros He. rewrite update_general_split.
    fold desired current. rewrite (Hempty He). cbn [fst snd].
    rewrite app_nil_r, orb_false_r. by rewrite <-surjective_pairing.
Qed.

Lemma dns_replaced_on_difference_witness :
  update_general (module_args (playbook_dns ["8.8.8.8"]) false)
    (engine_plain ["8.8.4.4"])
  = ([Dns_clear; Dns_add ["8.8.8.8"]], true)
  ∧ update_general (module_args (playbook_dns ["8.8.8.8"; "1.1.1.1"]) false)
      (engine_plain ["1.1.1.1"; "8.8.8.8"])
    = ([], false)
  ∧ update_general (module_args (playbook_dns []) false)
      (engine_plain ["8.8.4.4"])
    = ([], false).
Proof.
  split_and!.
  - destruct (dns_replaced_on_difference
                (module_args (playbook_dns ["8.8.8.8"]) false)
                (engine_plain ["8.8.4.4"])) as (_ & Hdiff & _ & _).
    apply Hdiff.
    + discriminate.
    + simpl. intros H. specialize (H "8.8.8.8").
      rewrite !list_elem_of_singleton in H. destruct H as [_ H].
      specialize (H eq_refl). discriminate.
  - destruct (dns_replaced_on_difference
                (module_args (playbook_dns ["8.8.8.8"; "1.1.1.1"]) false)
                (engine_plain ["1.1.1.1"; "8.8.8.8"])) as (_ & _ & Hsame & _).
    apply Hsame.
    + discriminate.
    + simpl. intros a. rewrite !elem_of_cons, !elem_of_nil. tauto.
  - destruct (dns_replaced_on_difference
                (module_args (playbook_dns []) false)
                (engine_plain ["8.8.4.4"])) as (_ & _ & _ & Hempty).
    apply Hempty. reflexivity.
Defined.

(** C4 as stated fails: with an empty desired list (the default of the
    option) and an engine that has a DNS entry, the two sets differ and yet
    nothing is cleared or added and changed is false. *)
Lemma dns_empty_desired_counterexample :
  sym_diff (list_to_set (dns (engine_plain ["8.8.4.4"])))
           (list_to_set (domain_server_address
                           (module_args playbook_minimal false))) ≠ ∅
  ∧ ¬ (∀ a, a ∈ dns (engine_plain ["8.8.4.4"])
            ↔ a ∈ domain_server_address (module_args playbook_minimal false))
  ∧ update_general (module_args playbook_minimal false)
      (engine_plain ["8.8.4.4"]) = ([], false).
Proof.
  split_and!.
  - rewrite sym_diff_empty, same_addresses. intros H.
    apply (elem_of_nil "8.8.4.4"), H. by left.
  - intros H. apply (elem_of_nil "8.8.4.4"), H. by left.
  - reflexivity.
Qed.

Lemma elem_of_update_general_feature (self : module_params)
    (engine : engine_general) (c : call) :
  is_dns_call c = false →
  c ∈ (update_general self engine).1 ↔ c ∈ (toggles self engine).1.
Proof.
  intros Hc. rewrite update_general_split. cbn [fst]. rewrite elem_of_app.
  split; [|by left]. intros [H|H]; [done|].
  apply elem_of_update_dns in H. congruence.
Qed.

(** C8, as amended: for each of the three features on its own,
    [update_general] enables it exactly when the desired value is true and
    the engine has it off, disables it exactly when the desired value is
    false and the engine has it on, and issues no call for it otherwise,
    the desired value None included; a feature the playbook leaves out
    reaches [update_general] as its default false, not as None. *)
Theorem feature_toggled_exactly (self : module_params)
    (engine : engine_general) (f : feature) :
  let calls := (update_general self engine).1 in
  (Feature_enable f ∈ calls ↔
     desired_feature self f = Some true ∧ feature_status engine f = false)
  ∧ (Feature_disable f ∈ calls ↔
       desired_feature self f = Some false ∧ feature_status engine f = true)
  ∧ (∀ pb check,
       desired_feature (module_args pb check) f
       = Some (default false (playbook_feature pb f))).
Proof.
  intros calls. subst calls. split_and!.
  - rewrite elem_of_update_general_feature by done. rewrite elem_of_toggles.
    split.
    + intros (g & [(Heq & H)|(Heq & _)]); [|discriminate].
      by injection Heq as <-.
    + intros H. exists f. by left.
  - rewrite elem_of_update_general_feature by done. rewrite elem_of_toggles.
    split.
    + intros (g & [(Heq & _)|(Heq & H)]); [discriminate|].
      by injection Heq as <-.
    + intros H. exists f. by right.
  - intros pb check. by destruct f.
Qed.

(** C8 as stated fails: a playbook that does not mention [default_nat],
    run against an engine that has default NAT on, switches it off. *)
Lemma feature_left_out_counterexample :
  pb_default_nat playbook_minimal = None
  ∧ feature_status engine_nat_on DefaultNat = true
  ∧ update_general (module_args playbook_minimal false) engine_nat_on
    = ([Feature_disable DefaultNat], true).
Proof. split_and!; reflexivity. Qed.

(** ** Validation of the interfaces *)

(** A loop either runs through, every body returning, or stops at the first
    element whose body raises. *)
Lemma for_each_spec {A} (body : A → result unit) (l : list A) :
  match for_each body l with
  | Ok _ => ∀ x, x ∈ l → body x = Ok ()
  | Raise e => ∃ x, x ∈ l ∧ body x = Raise e
  end.
Proof.
  induction l as [|a l IH]; simpl.
  - intros x Hx. by apply elem_of_nil in Hx.
  - destruct (body a) as [[]|e] eqn:Ha; simpl.
    + destruct (for_each body l) as [[]|e].
      * intros x [->|Hx]%elem_of_cons; auto.
      * destruct IH as (x & Hx & Hb). exists x. split; [by right|done].
    + exists a. split; [by left|done].
Qed.

Lemma check_node_complete (interface : YamlInterface) (n : node) :
  (∀ k, k ∈ node_req → is_Some (n !! k)) → check_node interface n = Ok ().
Proof.
  intros H. unfold check_node.
  replace (forallb _ node_req) with true; [done|].
  symmetry. apply forallb_forall. intros k Hk.
  apply bool_decide_eq_true_2, H. by apply list_elem_of_In.
Qed.

Lemma check_node_incomplete (d : interface_def) (n : node) :
  node_lacks_field n →
  ∃ r, Yaml.repr (Yaml.init d) = Ok r
       ∧ check_node (Yaml.init d) n = fail (NodeMissingField r).
Proof.
  intros (k & Hk & Hn). destruct (repr_init d) as [r Hr]. exists r.
  split; [done|]. unfold check_node.
  replace (forallb _ node_req) with false; [by rewrite Hr|].
  symmetry. apply not_true_is_false. rewrite forallb_forall. intros H.
  specialize (H k). rewrite <-list_elem_of_In in H. specialize (H Hk).
  apply bool_decide_eq_true_1 in H. rewrite Hn in H. by destruct H.
Qed.

Lemma check_node_cases (d : interface_def) (n : node) :
  ((∀ k, k ∈ node_req → is_Some (n !! k))
   ∧ check_node (Yaml.init d) n = Ok ())
  ∨ (node_lacks_field n
     ∧ ∃ r, Yaml.repr (Yaml.init d) = Ok r
            ∧ check_node (Yaml.init d) n = fail (NodeMissingField r)).
Proof.
  destruct (decide (Forall (λ k, is_Some (n !! k)) node_req)) as [Hall|Hex].
  - left. rewrite Forall_forall in Hall. split; [done|].
    by apply check_node_complete.
  - right. apply not_Forall_Exists in Hex; [|apply _].
    apply Exists_exists in Hex as (k & Hk & Hnone).
    assert (node_lacks_field n) as Hl.
    { exists k. split; [done|]. by apply eq_None_not_Some. }
    split; [done|]. by apply check_node_incomplete.
Qed.

(** What [check_interface] answers on a freshly built interface. *)
Lemma check_interface_cases (d : interface_def) :
  match check_interface (Yaml.init d) with
  | Ok _ =>
      (∃ v, def_scalars d !! "interface_id" = Some v ∧ py_str v ≠ "")
      ∧ ∀ n, n ∈ default [] (def_nodes d) →
             ∀ k, k ∈ node_req → is_Some (n !! k)
  | Raise e =>
      (e = ModuleFail InterfaceIdRequired
       ∧ truthy (coerced d "interface_id") = false)
      ∨ (has_incomplete_node d
         ∧ ∃ r, Yaml.repr (Yaml.init d) = Ok r
                ∧ e = ModuleFail (NodeMissingField r))
  end.
Proof.
  unfold check_interface.
  rewrite (getattr_init _ _ interface_id_field). simpl.
  fold (coerced d "interface_id").
  destruct (truthy (coerced d "interface_id")) eqn:Hid; simpl; [|by left].
  rewrite ?nodes_init.
  pose proof (for_each_spec (check_node (Yaml.init d)) (default [] (def_nodes d))) as Hloop.
  destruct (for_each _ _) as [[]|e].
  - split.
    + unfold coerced in Hid. destruct (def_scalars d !! "interface_id") as [v|]; [|done].
      exists v. split; [done|]. simpl in Hid. intros Hs. by rewrite Hs in Hid.
    + intros n Hn. specialize (Hloop n Hn).
      destruct (check_node_cases d n) as [[Hall _]|(_ & r & _ & Hr)]; [done|].
      rewrite Hloop in Hr. discriminate.
  - right. destruct Hloop as (n & Hn & Hraise).
    destruct (check_node_cases d n) as [[_ Hok]|(Hl & r & Hr & Hf)].
    + rewrite Hok in Hraise. discriminate.
    + split; [by exists n|]. exists r. split; [done|].
      rewrite Hf in Hraise. by injection Hraise as <-.
Qed.





Example node_without_address_message :
  exec_module ∅ false (params_of [interface_node_without_address])
    (λ _ _, Ok [])
  = Raise (ModuleFail
             (NodeMissingField "Interface(interface_id=0, vlan_id=None)")).
Proof. reflexivity. Qed.


(** ** Node ids are not compared *)

Lemma as_dict_init (d : interface_def) :
  ∃ o, Yaml.as_dict (Yaml.init d) = Ok o ∧ nodes o = nodes (Yaml.init d).
Proof.
  unfold Yaml.as_dict. rewrite is_vlan_init. simpl.
  destruct (match def_scalars d !! "vlan_id" with
            | Some v => negb (String.eqb (py_str v) "")
            | None => false
            end); [eauto|].
  unfold Yaml.delattr. rewrite (init_lookup _ _ vlan_id_field). eauto.
Qed.

Lemma as_dict_all (ifs : list YamlInterface) :
  (∀ x, x ∈ ifs → ∃ d, x = Yaml.init d) →
  ∃ l, mapM Yaml.as_dict ifs = Ok l.
Proof.
  induction ifs as [|x ifs IH]; intros H; simpl; [eauto|].
  destruct (H x) as [d ->]; [by left|].
  destruct (as_dict_init d) as (o & -> & _). simpl.
  destruct IH as [l ->]; [|simpl; eauto].
  intros y Hy. apply H. by right.
Qed.

Lemma filter_others (p : string) (ifs : list interface_def) :
  ∃ l, filterM (λ intf, i ← Yaml.getattr intf "interface_id";
                        mret (negb (py_eq i (PStr p))))
         (Interfaces.iter ifs) = Ok l
       ∧ ∀ x, x ∈ l → ∃ d, x = Yaml.init d.
Proof.
  unfold Interfaces.iter.
  induction ifs as [|d ifs (l & IH & Hl)].
  - exists []. split; [done|]. intros x Hx. by apply elem_of_nil in Hx.
  - rewrite fmap_cons. cbn [filterM].
    rewrite IH, (getattr_init _ _ interface_id_field).
    cbn [mbind result_bind mret result_ret].
    destruct (negb _).
    + exists (Yaml.init d :: l). split; [done|].
      intros x [->|Hx]%elem_of_cons; eauto.
    + exists l. done.
Qed.

(** C1, as amended: the checks before the create call look at the presence
    of [interface_id] and of the three node keys and at the management
    interface, never at the values of [nodeid].  A document (no BGP, state
    present, cluster not yet on the server) whose interfaces all have a
    non-empty [interface_id], whose nodes all have [address],
    [network_value] and [nodeid], and whose management interface is there
    and has nodes, passes them whether or not node ids repeat, and outside
    check mode the create call is issued for it. *)
Theorem validation_ignores_nodeid_values
    (smc : gmap (string * string) string) (self : module_params)
    (rest : bool → option Cache → result (list call)) (calls : list call) :
  state self = "present" →
  bgp_wanted self = None →
  (∀ d, d ∈ interfaces self →
        (∃ v, def_scalars d !! "interface_id" = Some v ∧ py_str v ≠ "")
        ∧ ∀ n, n ∈ default [] (def_nodes d) →
               ∀ k, k ∈ node_req → is_Some (n !! k)) →
  (∃ d, d ∈ interfaces self
        ∧ coerced d "interface_id" = PStr (primary_mgt self)) →
  (∀ d, d ∈ interfaces self →
        coerced d "interface_id" = PStr (primary_mgt self) →
        default [] (def_nodes d) ≠ []) →
  check_mode self = false →
  rest true None = Ok calls →
  ∃ mgmt cluster others,
    validate smc false self = Ok (Some mgmt, None)
    ∧ Yaml.as_dict mgmt = Ok cluster
    ∧ exec_module smc false self rest
      = Ok (FirewallCluster_create cluster others self :: calls).
Proof.
  intros Hstate Hbgp Hall (d0 & Hd0 & Hmgmt) Hnodes Hcheck Hrest.
  assert (∃ d, d ∈ interfaces self
               ∧ coerced d "interface_id" = PStr (primary_mgt self)
               ∧ validate_interfaces self = Ok (Yaml.init d)) as (d & Hd & Hid & Hval).
  { unfold validate_interfaces.
    rewrite bool_decide_eq_false_2
      by (intros Hnil; rewrite Hnil in Hd0; by apply elem_of_nil in Hd0).
    pose proof (for_each_spec check_interface (Interfaces.iter (interfaces self))) as Hloop.
    destruct (for_each _ _) as [[]|e].
    2:{ destruct Hloop as (x & Hx & Hraise).
        unfold Interfaces.iter in Hx. apply list_elem_of_fmap in Hx as (d' & -> & Hd').
        destruct (Hall d' Hd') as [(v & Hv & Hne) Hn].
        pose proof (check_interface_cases d') as Hc. rewrite Hraise in Hc.
        destruct Hc as [[_ Ht]|((n & Hin & k & Hk & Hnone) & _)].
        - unfold coerced in Ht. rewrite Hv in Ht. simpl in Ht.
          apply negb_false_iff, String.eqb_eq in Ht. done.
        - destruct (Hn n Hin k Hk) as [x Hx]. congruence. }
    simpl. unfold Interfaces.get. simpl.
    set (t := λ i : YamlInterface,
                py_eq (default PNone (attrs i !! "interface_id"))
                      (PStr (primary_mgt self))).
    rewrite (first_match_find _ t).
    2:{ intros x. unfold Interfaces.iter. rewrite list_elem_of_fmap.
        intros (d' & -> & _). rewrite (getattr_init _ _ interface_id_field).
        unfold t. by rewrite (init_lookup _ _ interface_id_field). }
    destruct (find_first_hit t (Interfaces.iter (interfaces self)) (Yaml.init d0))
      as (y & Hy & Hin & Hty).
    { unfold Interfaces.iter. apply list_elem_of_fmap. eauto. }
    { unfold t. rewrite (init_lookup _ _ interface_id_field). simpl.
      fold (coerced d0 "interface_id"). rewrite Hmgmt. simpl. apply String.eqb_refl. }
    unfold Interfaces.iter in Hin. apply list_elem_of_fmap in Hin as (d & -> & Hd).
    exists d. split; [done|].
    unfold t in Hty. rewrite (init_lookup _ _ interface_id_field) in Hty.
    simpl in Hty. fold (coerced d "interface_id") in Hty.
    assert (coerced d "interface_id" = PStr (primary_mgt self)) as Hcd.
    { destruct (coerced d "interface_id"); simpl in Hty; try done.
      apply String.eqb_eq in Hty. by rewrite Hty. }
    split; [done|]. rewrite Hy. simpl.
    unfold Yaml.len. rewrite nodes_init.
    specialize (Hnodes d Hd Hcd).
    destruct (default [] (def_nodes d)); [done|]. done. }
  destruct (as_dict_init d) as (cluster & Hcl & _).
  destruct (filter_others (primary_mgt self) (interfaces self)) as (l & Hl & Hfresh).
  destruct (as_dict_all l Hfresh) as [others Hothers].
  exists (Yaml.init d), cluster, others.
  assert (validate smc false self = Ok (Some (Yaml.init d), None)) as Hv.
  { unfold validate. rewrite Hstate. simpl. rewrite Hval, Hbgp. done. }
  split_and!; [done|done|].
  unfold exec_module. rewrite Hv. simpl. rewrite Hstate. simpl.
  rewrite Hl. simpl. rewrite Hothers. simpl. rewrite Hcl. simpl.
  rewrite Hcheck, Hrest. done.
Qed.

Lemma validation_ignores_nodeid_values_witness :
  ∃ mgmt cluster others,
    validate ∅ false params_two_nodes = Ok (Some mgmt, None)
    ∧ Yaml.as_dict mgmt = Ok cluster
    ∧ exec_module ∅ false params_two_nodes (λ _ _, Ok [])
      = Ok (FirewallCluster_create cluster others params_two_nodes :: []).
Proof.
  apply (validation_ignores_nodeid_values ∅ (params_of [interface_two_nodes])
           (λ _ _, Ok []) []).
  - reflexivity.
  - reflexivity.
  - intros d Hd. apply list_elem_of_singleton in Hd as ->. split.
    + exists (PInt 0). split; [reflexivity | discriminate].
    + intros n Hn k Hk. simpl in Hn.
      unfold node_req in Hk.
      repeat (apply elem_of_cons in Hn as [->|Hn]);
        [| |by apply elem_of_nil in Hn];
        repeat (apply elem_of_cons in Hk as [->|Hk]);
        try (by apply elem_of_nil in Hk); by eexists.
  - exists interface_two_nodes. split; [by left | reflexivity].
  - intros d Hd _. apply list_elem_of_singleton in Hd as ->. discriminate.
  - reflexivity.
  - reflexivity.
Defined.

(** C1 as stated fails: a document whose management interface has two
    nodes with the same [nodeid] passes the checks, and the create call is
    issued with both nodes. *)
Lemma duplicate_nodeid_counterexample :
  duplicate_nodeid interface_duplicate_nodeid
  ∧ (∃ mgmt, validate ∅ false params_duplicate_nodeid = Ok (Some mgmt, None))
  ∧ ∃ cluster,
      exec_module ∅ false params_duplicate_nodeid (λ _ _, Ok [])
      = Ok [FirewallCluster_create cluster [] params_duplicate_nodeid]
      ∧ nodes cluster = [mk_node "1.1.1.2" "1.1.1.0/24" 1;
                         mk_node "1.1.1.3" "1.1.1.0/24" 1].
Proof.
  split_and!.
  - exists 0, 1, (mk_node "1.1.1.2" "1.1.1.0/24" 1),
      (mk_node "1.1.1.3" "1.1.1.0/24" 1), (PInt 1).
    split_and!; [lia|reflexivity..].
  - eexists. vm_compute. reflexivity.
  - eexists. split; vm_compute; reflexivity.
Qed.

(** ** BGP *)

Lemma dict_of_lookup (l : list (option string * option string))
    (network : option string) :
  dict_of l !! network = route_map_for l network.
Proof.
  unfold dict_of.
  assert (∀ d : gmap (option string) (option string),
            foldl (λ d '(k, v), <[k := v]> d) d l !! network
            = match route_map_for l network with
              | Some r => Some r
              | None => d !! network
              end) as H.
  { induction l as [|[k v] l IH]; intros d; simpl; [done|].
    rewrite IH. destruct (route_map_for l network); [done|].
    destruct (decide (k = network)) as [->|Hne].
    - by rewrite lookup_insert_eq.
    - by rewrite lookup_insert_ne. }
  rewrite H, lookup_empty. by destruct (route_map_for l network).
Qed.

Lemma same_mapping (bgp : bgp_state) (announced : list (string * option string)) :
  current_dict bgp = new_dict announced
  ↔ ∀ network, route_map_for (current_announced bgp) network
               = route_map_for (desired_announced announced) network.
Proof.
  unfold current_dict, new_dict, current_announced, desired_announced. split.
  - intros H network. by rewrite <-!dict_of_lookup, <-H.
  - intros H. apply map_eq. intros network.
    rewrite !dict_of_lookup. apply H.
Qed.

(** [update_bgp] decides the comparison, once both formats give what the
    playbook asks for. *)
Lemma update_bgp_spec (smc : gmap (string * string) string) (cache : Cache)
    (b : bgp_def) (bgp : bgp_state) :
  antispoofing_format cache b = Ok (playbook_antispoofing smc b) →
  announced_network_format cache b = Ok (playbook_announced smc b) →
  ∃ needed, update_bgp cache b bgp = Ok needed
            ∧ (needed = true ↔ bgp_differs smc b bgp).
Proof.
  intros Hs Ha. unfold update_bgp, bgp_differs, bgp_settings_differ.
  set (spoofing := playbook_antispoofing smc b) in *.
  set (announced := playbook_announced smc b) in *.
  destruct (decide (router_id bgp = Some (default "" (bgp_router_id b)))) as [Hr|Hr].
  2:{ rewrite bool_decide_eq_false_2 by done. simpl.
      exists true. split; [done|]. split; [intros _; by left|done]. }
  rewrite bool_decide_eq_true_2 by done. simpl.
  destruct (bgp_profile b) as [p|] eqn:Hp.
  - destruct (String.eqb_spec p (profile_name bgp)) as [Hpe|Hpe]; simpl.
    + rewrite Hs. simpl.
      destruct (decide (list_to_set (C := gset string) (antispoofing_ne_ref bgp)
                        = list_to_set spoofing)) as [Hsp|Hsp].
      2:{ rewrite bool_decide_eq_false_2
            by (by rewrite sym_diff_empty).
          simpl. exists true. split; [done|]. split; [intros _|done].
          rewrite same_addresses in Hsp. auto. }
      rewrite bool_decide_eq_true_2 by (by rewrite sym_diff_empty).
      simpl. rewrite Ha. simpl.
      destruct (decide (current_dict bgp = new_dict announced)) as [Hd|Hd].
      * rewrite bool_decide_eq_true_2 by done. simpl.
        exists false. split; [done|]. split; [done|].
        rewrite same_mapping in Hd. rewrite same_addresses in Hsp.
        intros [?|[(p' & Hp' & ?)|[?|?]]]; try done. congruence.
      * rewrite bool_decide_eq_false_2 by done. simpl.
        exists true. split; [done|]. split; [intros _|done].
        rewrite same_mapping in Hd. auto.
    + exists true. split; [done|]. split; [intros _|done].
      right; left. by exists p.
  - rewrite Hs. simpl.
    destruct (decide (list_to_set (C := gset string) (antispoofing_ne_ref bgp)
                        = list_to_set spoofing)) as [Hsp|Hsp].
    2:{ rewrite bool_decide_eq_false_2
          by (by rewrite sym_diff_empty).
        simpl. exists true. split; [done|]. split; [intros _|done].
          rewrite same_addresses in Hsp. auto. }
    rewrite bool_decide_eq_true_2 by (by rewrite sym_diff_empty).
    simpl. rewrite Ha. simpl.
    destruct (decide (current_dict bgp = new_dict announced)) as [Hd|Hd].
    + rewrite bool_decide_eq_true_2 by done. simpl.
      exists false. split; [done|]. split; [done|].
      rewrite same_mapping in Hd. rewrite same_addresses in Hsp.
      intros [?|[(p' & Hp' & ?)|[?|?]]]; done.
    + rewrite bool_decide_eq_false_2 by done. simpl.
      exists true. split; [done|]. split; [intros _|done].
      rewrite same_mapping in Hd. auto.
Qed.

(** With BGP enabled and both formats giving what the playbook asks for,
    the calls of [exec_module] for BGP are those of a re-establishment or
    none. *)
Lemma reconcile_bgp_cases (smc : gmap (string * string) string)
    (cache : Cache) (self : module_params)
    (b : bgp_def) (as_system : as_def) (engine_bgp : bgp_state)
    (changed : bool) :
  bgp self = Some b →
  bgp_nonempty b = true →
  default true (bgp_enabled b) = true →
  autonomous_system b = Some as_system →
  antispoofing_format cache b = Ok (playbook_antispoofing smc b) →
  announced_network_format cache b = Ok (playbook_announced smc b) →
  ∃ calls changed',
    reconcile_bgp cache self engine_bgp changed = Ok (calls, changed')
    ∧ (Bgp_disable ∈ calls ↔ bgp_differs smc b engine_bgp)
    ∧ (bgp_differs smc b engine_bgp →
         calls = reestablish as_system (playbook_antispoofing smc b)
                   (default "" (bgp_router_id b)) (playbook_announced smc b)
                 ++ [Engine_update]
         ∧ changed' = true)
    ∧ (¬ bgp_differs smc b engine_bgp →
         (∀ c, c ∈ calls → is_bgp_call c = false)
         ∧ changed' = changed).
Proof.
  intros Hb Hne Hen Has Hs Ha.
  destruct (update_bgp_spec smc cache b engine_bgp Hs Ha)
    as (needed & Hup & Hiff).
  unfold reconcile_bgp. rewrite Hb, Hne, Hen. cbn [negb andb].
  rewrite Hup. cbn [mbind result_bind].
  destruct needed.
  - rewrite Has, Hs, Ha. cbn [mbind result_bind].
    assert (bgp_differs smc b engine_bgp) as Hd by by apply Hiff.
    eexists _, _. split; [reflexivity|]. split_and!.
    + split; [done|]. intros _. rewrite !elem_of_app, !elem_of_cons. auto.
    + done.
    + done.
  - assert (¬ bgp_differs smc b engine_bgp) as Hd
      by (intros Hd; apply Hiff in Hd; discriminate).
    eexists _, _. split; [reflexivity|]. split_and!.
    + split; [|done]. destruct changed; simpl;
        rewrite ?elem_of_cons, ?elem_of_nil; intros H;
        repeat (destruct H as [H|H]; try discriminate); done.
    + done.
    + intros _. split; [|done].
      intros c. destruct changed; simpl;
        rewrite ?elem_of_cons, ?elem_of_nil; intros H;
        repeat (destruct H as [->|H]; [done|]); done.
Qed.

(** When the playbook gives a router id, the comparison is the one the
    spec words. *)
Lemma bgp_differs_router_id_given (smc : gmap (string * string) string)
    (b : bgp_def) (bgp : bgp_state) :
  is_Some (bgp_router_id b) →
  bgp_differs smc b bgp ↔ bgp_differs_as_claimed smc b bgp.
Proof.
  intros [r Hr]. unfold bgp_differs, bgp_differs_as_claimed.
  by rewrite Hr.
Qed.

Example bgp_same_router_untouched :
  reconcile_bgp cache_net_a (params_bgp (bgp_router "1.1.1.1"))
    engine_bgp_1111 false = Ok ([], false).
Proof. vm_compute. reflexivity. Qed.

(** ** After validation every reference resolves *)

Section CacheFacts.

Variable smc : gmap (string * string) string.

Implicit Types (c : Cache) (k : string * string).

Lemma add_entry_keeps c typeof value k :
  is_Some (resolved c !! k) →
  is_Some (resolved (CacheOps.add_entry smc c typeof value) !! k).
Proof.
  intros Hk. unfold CacheOps.add_entry.
  destruct (smc !! (typeof, value)); simpl; [|done].
  destruct (decide ((typeof, value) = k)) as [->|Hne].
  - rewrite lookup_insert_eq. eauto.
  - by rewrite lookup_insert_ne.
Qed.

Lemma add_entry_missing c typeof value :
  missing (CacheOps.add_entry smc c typeof value) = [] →
  missing c = []
  ∧ is_Some (resolved (CacheOps.add_entry smc c typeof value) !! (typeof, value)).
Proof.
  unfold CacheOps.add_entry.
  destruct (smc !! (typeof, value)); simpl.
  - intros ->. split; [done|]. rewrite lookup_insert_eq. eauto.
  - intros H. apply app_eq_nil in H as [_ H]. discriminate.
Qed.

Lemma add_values c typeof (values : list string) :
  let c' := foldl (λ c v, CacheOps.add_entry smc c typeof v) c values in
  (∀ k, is_Some (resolved c !! k) → is_Some (resolved c' !! k))
  ∧ (missing c' = [] →
     missing c = []
     ∧ ∀ v, v ∈ values → is_Some (resolved c' !! (typeof, v))).
Proof.
  revert c. induction values as [|v values IH]; intros c; simpl.
  - split; [done|]. intros ->. split; [done|].
    intros v Hv. by apply elem_of_nil in Hv.
  - destruct (IH (CacheOps.add_entry smc c typeof v)) as [Hkeep Hmiss].
    split.
    + intros k Hk. by apply Hkeep, add_entry_keeps.
    + intros Hnil. destruct (Hmiss Hnil) as [Hc Hall].
      destruct (add_entry_missing _ _ _ Hc) as [Hc0 Hv].
      split; [done|]. intros w [->|Hw]%elem_of_cons; [by apply Hkeep|by apply Hall].
Qed.

Lemma add_all c (d : list (string * list string)) :
  (∀ k, is_Some (resolved c !! k) → is_Some (resolved (CacheOps.add smc c d) !! k))
  ∧ (missing (CacheOps.add smc c d) = [] →
     missing c = []
     ∧ ∀ typeof values v,
         (typeof, values) ∈ d → v ∈ values →
         is_Some (resolved (CacheOps.add smc c d) !! (typeof, v))).
Proof.
  unfold CacheOps.add. revert c.
  induction d as [|[t vs] d IH]; intros c; simpl.
  - split; [done|]. intros ->. split; [done|].
    intros ??? H. by apply elem_of_nil in H.
  - destruct (IH (foldl (λ c v, CacheOps.add_entry smc c t v) c vs)) as [Hkeep Hmiss].
    destruct (add_values c t vs) as [Hkeep0 Hmiss0].
    split.
    + intros k Hk. by apply Hkeep, Hkeep0.
    + intros Hnil. destruct (Hmiss Hnil) as [Hc Hall].
      destruct (Hmiss0 Hc) as [Hc0 Hvs]. split; [done|].
      intros typeof values v [[= -> ->]|Hin]%elem_of_cons Hv.
      * by apply Hkeep, Hvs.
      * by apply (Hall typeof values).
Qed.

Lemma check_peer_raise (e : exn) (peers : list peering_def) :
  foldl (check_peer smc) (Raise e) peers = Raise e.
Proof. induction peers as [|p peers IH]; [done|]. simpl. apply IH. Qed.

Lemma check_peers_keep c c' (peers : list peering_def) k :
  foldl (check_peer smc) (Ok c) peers = Ok c' →
  is_Some (resolved c !! k) → is_Some (resolved c' !! k).
Proof.
  revert c. induction peers as [|p peers IH]; intros c; cbn [foldl].
  - by intros [= ->].
  -
    destruct (check_peer smc (Ok c) p) as [c1|e] eqn:Hp;
      [|by rewrite check_peer_raise].
    intros Hf Hk. apply (IH _ Hf).
    unfold check_peer in Hp. simpl in Hp.
    destruct (negb (bool_decide (is_Some (peer_name p)))); [done|].
    destruct (external_bgp_peer p) as [x|], (peer_engine p) as [y|];
      try done; injection Hp as <-; by apply add_entry_keeps.
Qed.

(** The cache holds nothing but what the server gave. *)
Lemma add_entry_from_server c typeof value :
  resolved c ⊆ smc →
  resolved (CacheOps.add_entry smc c typeof value) ⊆ smc.
Proof.
  intros Hc. unfold CacheOps.add_entry.
  destruct (smc !! (typeof, value)) as [h|] eqn:Hh; simpl; [|done].
  by apply insert_subseteq_l.
Qed.

Lemma add_values_from_server c typeof (values : list string) :
  resolved c ⊆ smc →
  resolved (foldl (λ c v, CacheOps.add_entry smc c typeof v) c values) ⊆ smc.
Proof.
  revert c. induction values as [|v values IH]; intros c Hc; simpl; [done|].
  by apply IH, add_entry_from_server.
Qed.

Lemma add_from_server c (d : list (string * list string)) :
  resolved c ⊆ smc → resolved (CacheOps.add smc c d) ⊆ smc.
Proof.
  unfold CacheOps.add. revert c.
  induction d as [|[t vs] d IH]; intros c Hc; simpl; [done|].
  by apply IH, add_values_from_server.
Qed.

Lemma check_peers_from_server c c' (peers : list peering_def) :
  foldl (check_peer smc) (Ok c) peers = Ok c' →
  resolved c ⊆ smc → resolved c' ⊆ smc.
Proof.
  revert c. induction peers as [|p peers IH]; intros c; cbn [foldl].
  - by intros [= ->].
  - destruct (check_peer smc (Ok c) p) as [c1|e] eqn:Hp;
      [|by rewrite check_peer_raise].
    intros Hf Hc. apply (IH _ Hf).
    unfold check_peer in Hp. simpl in Hp.
    destruct (negb (bool_decide (is_Some (peer_name p)))); [done|].
    destruct (external_bgp_peer p) as [x|], (peer_engine p) as [y|];
      try done; injection Hp as <-; by apply add_entry_from_server.
Qed.

End CacheFacts.

Lemma setdefault_append_new (k v : string) (d : list (string * list string)) :
  holds (setdefault_append k v d) k v.
Proof.
  induction d as [|[k' vs] d IH]; simpl.
  - exists [v]. split; by left.
  - case_decide as Hk.
    + subst. exists (vs ++ [v]). split; [by left|].
      apply elem_of_app. right. by left.
    + destruct IH as (vs' & Hin & Hv). exists vs'. split; [by right|done].
Qed.

Lemma setdefault_append_old (k v : string) (d : list (string * list string))
    (typeof nm : string) :
  holds d typeof nm → holds (setdefault_append k v d) typeof nm.
Proof.
  intros (vs & Hin & Hnm). induction d as [|[k' vs'] d IH]; simpl.
  - by apply elem_of_nil in Hin.
  - apply elem_of_cons in Hin as [[= <- <-]|Hin].
    + case_decide.
      * exists (vs ++ [v]). split; [by left|]. apply elem_of_app. by left.
      * exists vs. split; [by left|done].
    + destruct (IH Hin) as (ws & Hws & Hw).
      case_decide.
      * exists vs. split; [by right|done].
      * exists ws. split; [by right|done].
Qed.

Lemma extract_announced_raise (e : exn) (l : list (string * announced_def)) :
  foldl extract_announced (Raise e) l = Raise e.
Proof. induction l as [|[t dv] l IH]; [done|]. simpl. apply IH. Qed.

(** The names collected for the cache hold the name of every item and the
    route map of every item that has one. *)
Lemma extract_announced_entry (l : list (string * announced_def))
    (fc fc' : list (string * list string)) :
  foldl extract_announced (Ok fc) l = Ok fc' →
  (∀ t n, holds fc t n → holds fc' t n)
  ∧ ∀ typeof dv, (typeof, dv) ∈ l →
      (∃ nm, ann_name dv = Some nm ∧ holds fc' typeof nm)
      ∧ ∀ rm, ann_route_map dv = Some rm → holds fc' "route_map" rm.
Proof.
  revert fc. induction l as [|[t dv] l IH]; intros fc; cbn [foldl].
  - intros [= ->]. split; [done|]. intros ?? H. by apply elem_of_nil in H.
  - destruct (extract_announced (Ok fc) (t, dv)) as [fc1|e] eqn:Hstep;
      [|by rewrite extract_announced_raise].
    intros Hf. destruct (IH _ Hf) as [Hkeep Hall].
    unfold extract_announced in Hstep. simpl in Hstep.
    destruct (negb (bool_decide (t ∈ valid_types))); [done|].
    destruct (ann_name dv) as [nm|] eqn:Hnm; [|done].
    injection Hstep as <-. split.
    + intros t' n Hold. apply Hkeep, setdefault_append_old.
      destruct (ann_route_map dv); [by apply setdefault_append_old|done].
    + intros typeof dv' [[= -> ->]|Hin]%elem_of_cons.
      * split.
        -- exists nm. split; [done|]. apply Hkeep, setdefault_append_new.
        -- intros rm Hrm. apply Hkeep. rewrite Hrm.
           apply setdefault_append_old, setdefault_append_new.
      * by apply Hall.
Qed.

Lemma extract_announced_all (s : list (list (string * announced_def)))
    (fc fc' : list (string * list string)) :
  foldl (λ acc announced, foldl extract_announced acc announced) (Ok fc) s
  = Ok fc' →
  (∀ t n, holds fc t n → holds fc' t n)
  ∧ ∀ entry typeof dv, entry ∈ s → (typeof, dv) ∈ entry →
      (∃ nm, ann_name dv = Some nm ∧ holds fc' typeof nm)
      ∧ ∀ rm, ann_route_map dv = Some rm → holds fc' "route_map" rm.
Proof.
  revert fc. induction s as [|entry s IH]; intros fc; cbn [foldl].
  - intros [= ->]. split; [done|]. intros ??? H. by apply elem_of_nil in H.
  - destruct (foldl extract_announced (Ok fc) entry) as [fc1|e] eqn:Hentry.
    2:{ intros Hf. exfalso. revert Hf. clear.
        induction s as [|x s IHs]; [done|]. cbn [foldl].
        by rewrite extract_announced_raise. }
    intros Hf. destruct (IH _ Hf) as [Hkeep Hall].
    destruct (extract_announced_entry _ _ _ Hentry) as [Hkeep1 Hall1].
    split.
    + intros t n Hold. by apply Hkeep, Hkeep1.
    + intros entry' typeof dv [->|Hin]%elem_of_cons Hitem.
      * destruct (Hall1 typeof dv Hitem) as [(nm & Hnm & Hh) Hrm].
        split.
        -- exists nm. split; [done|]. by apply Hkeep.
        -- intros rm Hdv. by apply Hkeep, Hrm.
      * by apply (Hall entry').
Qed.

Lemma mapM_app {A B} (f : A → result B) (l1 l2 : list A) (r1 r2 : list B) :
  mapM f l1 = Ok r1 → mapM f l2 = Ok r2 → mapM f (l1 ++ l2) = Ok (r1 ++ r2).
Proof.
  revert r1. induction l1 as [|x l1 IH]; intros r1; simpl.
  - by intros [= <-].
  - destruct (f x) as [y|e]; [|done]. simpl.
    destruct (mapM f l1) as [r|e]; [|done]. simpl.
    intros [= <-] H2. by rewrite (IH r eq_refl H2).
Qed.

(** A comprehension with two [for] clauses, item by item. *)
Lemma mapM_bind {A B C} (f : B → result C) (g : A → list B) (h : A → list C)
    (l : list A) :
  (∀ x, x ∈ l → mapM f (g x) = Ok (h x)) →
  mapM f (l ≫= g) = Ok (l ≫= h).
Proof.
  induction l as [|x l IH]; intros H; [done|].
  change (mapM f (g x ++ (l ≫= g)) = Ok (h x ++ (l ≫= h))).
  apply mapM_app; [apply H; by left|].
  apply IH. intros y Hy. apply H. by right.
Qed.

Lemma mapM_items {A B} (f : A → result B) (h : A → list B) (l : list A) :
  (∀ x, x ∈ l → mapM f [x] = Ok (h x)) → mapM f l = Ok (l ≫= h).
Proof.
  induction l as [|x l IH]; intros H; [done|].
  change (mapM f ([x] ++ l) = Ok (h x ++ (l ≫= h))).
  apply mapM_app; [apply H; by left|].
  apply IH. intros y Hy. apply H. by right.
Qed.

(** A playbook that passed [validate_bgp] has every antispoofing and
    announced reference and every route map in the cache, with the handle
    the server gave, so both formats give what the playbook asks for. *)
Lemma validated_bgp_formats (smc : gmap (string * string) string)
    (b : bgp_def) (cache : Cache) :
  validate_bgp smc b = Ok cache →
  ∃ as_system,
    autonomous_system b = Some as_system
    ∧ antispoofing_format cache b = Ok (playbook_antispoofing smc b)
    ∧ announced_network_format cache b = Ok (playbook_announced smc b).
Proof.
  unfold validate_bgp.
  destruct (validate_antispoofing_network _) as [[]|e]; [|done].
  cbn [mbind result_bind].
  set (c1 := CacheOps.add smc CacheOps.new (default [] (antispoofing_network b))).
  destruct (decide (missing c1 = [])) as [Hm1|Hm1];
    [rewrite (bool_decide_eq_true_2 _ Hm1)|by rewrite (bool_decide_eq_false_2 _ Hm1)].
  cbn [negb].
  destruct (validate_and_extract_announced _) as [fc|e] eqn:Hfc; [|done].
  cbn [mbind result_bind].
  set (c2 := CacheOps.add smc c1 fc).
  destruct (decide (missing c2 = [])) as [Hm2|Hm2];
    [rewrite (bool_decide_eq_true_2 _ Hm2)|by rewrite (bool_decide_eq_false_2 _ Hm2)].
  cbn [negb].
  destruct (autonomous_system b) as [as_system|]; [|done].
  destruct (negb _ || negb _); [done|].
  destruct (foldl (check_peer smc) (Ok c2) _) as [c3|e] eqn:Hpeers; [|done].
  cbn [mbind result_bind].
  destruct (negb _); [done|]. intros [= <-].
  destruct (add_all smc CacheOps.new (default [] (antispoofing_network b)))
    as [_ Hall1]. destruct (Hall1 Hm1) as [_ Hres1].
  destruct (add_all smc c1 fc) as [Hkeep2 Hall2].
  destruct (Hall2 Hm2) as [_ Hres2].
  assert (Hsub : resolved c3 ⊆ smc).
  { apply (check_peers_from_server smc c2 c3 _ Hpeers).
    apply add_from_server, add_from_server. apply map_empty_subseteq. }
  assert (Hc3 : ∀ k, is_Some (resolved c2 !! k) →
                 ∃ h, resolved c3 !! k = Some h ∧ smc !! k = Some h).
  { intros k Hk.
    destruct (check_peers_keep smc c2 c3 _ k Hpeers Hk) as [h Hh].
    exists h. split; [done|]. by apply (lookup_weaken _ _ _ _ Hh). }
  unfold validate_and_extract_announced in Hfc.
  destruct (extract_announced_all _ _ _ Hfc) as [_ Hitems].
  exists as_system. split_and!; [done|..].
  - unfold antispoofing_format, playbook_antispoofing.
    apply mapM_bind. intros [t vs] Hin. apply mapM_bind. intros v Hv.
    destruct (Hc3 (t, v)) as (h & Hh & Hsmc);
      [by apply Hkeep2, (Hres1 t vs)|].
    cbn [mapM CacheOps.get mbind option_bind].
    by rewrite Hh, Hsmc.
  - unfold announced_network_format, playbook_announced.
    apply mapM_bind. intros entry Hentry. apply mapM_items. intros [t dv] Hin.
    destruct (Hitems entry t dv Hentry Hin) as [(nm & Hnm & vs & Hvs & Hin') Hrm].
    destruct (Hc3 (t, nm)) as (h & Hh & Hsmc); [by apply (Hres2 t vs)|].
    cbn [mapM]. rewrite Hnm. cbn [CacheOps.get mbind option_bind].
    rewrite Hh, Hsmc.
    cbn [href mbind result_bind mret result_ret option_list].
    destruct (ann_route_map dv) as [rm|];
      cbn [CacheOps.get mbind option_bind mret result_ret option_list];
      [|done].
    destruct (Hrm rm eq_refl) as (ws & Hws & Hin'').
    destruct (Hc3 ("route_map", rm)) as (h' & Hh' & Hsmc');
      [by apply (Hres2 "route_map" ws)|].
    by rewrite Hh', Hsmc'.
Qed.

Lemma bgp_wanted_inv (self : module_params) (b : bgp_def) :
  bgp_wanted self = Some b →
  bgp self = Some b ∧ bgp_nonempty b = true
  ∧ default true (bgp_enabled b) = true.
Proof.
  unfold bgp_wanted. destruct (bgp self) as [b'|]; [|done].
  destruct (bgp_nonempty b') eqn:Hn, (default true (bgp_enabled b')) eqn:He;
    simpl; try done.
  by intros [= <-].
Qed.

(** C3, amended: when BGP is enabled in the playbook (and the run got past
    the validation of its references on the server), the engine's BGP is
    set up anew -- the autonomous system fetched or created, BGP disabled,
    enabled with the antispoofing handles and the router id of the
    playbook, and each announced network of the playbook advertised with
    the handle of its route map -- exactly when one of these differs from
    what the engine has: the router id, where a playbook without one asks
    for the empty string (so an engine that has no router id differs from
    it); the profile name, when the playbook gives one; the set of handles
    the server resolves the playbook's antispoofing names to; the mapping
    from the handle of each announced network of the playbook to the
    handle of its route map.  When none differs no BGP call is issued. *)
Theorem bgp_reestablished_iff_differs (smc : gmap (string * string) string)
    (self : module_params) (b : bgp_def) (cache : Cache)
    (engine_bgp : bgp_state) (changed : bool) :
  bgp_wanted self = Some b →
  validate_bgp smc b = Ok cache →
  ∃ as_system calls changed',
    autonomous_system b = Some as_system
    ∧ reconcile_bgp cache self engine_bgp changed = Ok (calls, changed')
    ∧ (Bgp_disable ∈ calls ↔ bgp_differs smc b engine_bgp)
    ∧ (bgp_differs smc b engine_bgp →
         calls = reestablish as_system (playbook_antispoofing smc b)
                   (default "" (bgp_router_id b)) (playbook_announced smc b)
                 ++ [Engine_update]
         ∧ changed' = true)
    ∧ (¬ bgp_differs smc b engine_bgp →
         (∀ c, c ∈ calls → is_bgp_call c = false)
         ∧ changed' = changed).
Proof.
  intros Hwanted Hvalid.
  destruct (bgp_wanted_inv _ _ Hwanted) as (Hb & Hne & Hen).
  destruct (validated_bgp_formats _ _ _ Hvalid) as (as_system & Has & Hs & Ha).
  destruct (reconcile_bgp_cases smc cache self b as_system engine_bgp changed
              Hb Hne Hen Has Hs Ha)
    as (calls & changed' & Hrun & Hiff & Hdiff & Hsame).
  exists as_system, calls, changed'.
  split_and!; done.
Qed.

Lemma bgp_reestablished_iff_differs_witness :
  ∃ calls changed',
    reconcile_bgp cache_route_map (params_bgp bgp_route_map)
      engine_bgp_1111 false = Ok (calls, changed')
    ∧ calls = [AutonomousSystem_get_or_create autonomous_system_65000;
               Bgp_disable;
               Bgp_enable autonomous_system_65000 ["http://smc/network/1"]
                 "1.1.1.1";
               Bgp_advertise_network "http://smc/network/1"
                 (Some "http://smc/route_map/3");
               Engine_update]
    ∧ changed' = true.
Proof.
  destruct (bgp_reestablished_iff_differs smc_route_map
              (params_bgp bgp_route_map) bgp_route_map
              cache_route_map engine_bgp_1111 false)
    as (a & calls & changed' & Ha & Hrun & _ & Hdiff & _);
    [reflexivity | vm_compute; reflexivity |].
  exists calls, changed'. split; [exact Hrun|].
  injection Ha as <-.
  destruct Hdiff as [-> ->]; [|split; [vm_compute|]; reflexivity].
  right. right. right. intros Hsame.
  specialize (Hsame (Some "http://smc/network/1")).
  vm_compute in Hsame. discriminate Hsame.
Defined.

(** The claim as the spec words it fails where neither the playbook nor
    the engine has a router id: nothing the spec compares differs, and BGP
    is set up anew all the same, since the module compares the engine's
    router id with the empty string. *)
Lemma router_id_absent_counterexample :
  bgp_wanted (params_bgp bgp_no_router_id) = Some bgp_no_router_id
  ∧ validate_bgp smc_elements bgp_no_router_id = Ok cache_net_a
  ∧ ¬ bgp_differs_as_claimed smc_elements bgp_no_router_id
        engine_bgp_no_router_id
  ∧ reconcile_bgp cache_net_a (params_bgp bgp_no_router_id)
      engine_bgp_no_router_id false
    = Ok (reestablish_no_router_id, true).
Proof.
  split_and!.
  - reflexivity.
  - vm_compute. reflexivity.
  - assert (playbook_antispoofing smc_elements bgp_no_router_id
            = ["http://smc/network/1"]) as Hs by (vm_compute; reflexivity).
    assert (playbook_announced smc_elements bgp_no_router_id
            = [("http://smc/network/1", None)]) as Ha
      by (vm_compute; reflexivity).
    unfold bgp_differs_as_claimed, bgp_settings_differ. rewrite Hs, Ha.
    intros [Hr|[(p & Hp & _)|[Hd|Hd]]].
    + by apply Hr.
    + discriminate Hp.
    + by apply Hd.
    + by apply Hd.
  - vm_compute. reflexivity.
Qed.

(** ** BGP peerings *)

(** What the loop of [update_bgp_peering] computes: both arms of the test
    on the network compare the names only, so the peering is attached
    again as soon as the routing node has nothing attached or has a
    peering of another name. *)
Lemma update_bgp_peering_changed (cache : Cache) (bgp_peering : string)
    (peering_dict : peering_def) (interface_peerings : list attached_peering)
    (changed : bool) :
  needs_update_of
    (update_bgp_peering cache bgp_peering peering_dict interface_peerings)
  = Some changed →
  changed = true ↔
    interface_peerings = []
    ∨ ∃ p, p ∈ interface_peerings ∧ att_peering_name p ≠ bgp_peering.
Proof.
  unfold update_bgp_peering.
  set (step := λ (needs_update : bool) (p : attached_peering), _).
  assert (Hfold : ∀ l acc,
            foldl step acc l = true ↔
            acc = true ∨ ∃ p, p ∈ l ∧ att_peering_name p ≠ bgp_peering).
  { induction l as [|p l IH]; intros acc; simpl.
    - split; [auto|]. intros [?|(p & Hp & _)]; [done|by apply elem_of_nil in Hp].
    - rewrite IH. unfold step.
      assert (Hname : (if negb (String.eqb (att_peering_name p) bgp_peering)
                       then true else acc) = true
                      ↔ acc = true ∨ att_peering_name p ≠ bgp_peering).
      { destruct (String.eqb_spec (att_peering_name p) bgp_peering); simpl;
          intuition congruence. }
      assert (Hname' : (if negb (String.eqb bgp_peering (att_peering_name p))
                        then true else acc) = true
                       ↔ acc = true ∨ att_peering_name p ≠ bgp_peering).
      { destruct (String.eqb_spec bgp_peering (att_peering_name p)); simpl;
          intuition congruence. }
      destruct (match peer_network peering_dict with
                | Some n => _ | None => false end).
      + rewrite Hname. split.
        * intros [[?|?]|(q & Hq & ?)]; [by left| |].
          -- right. exists p. split; [by left|done].
          -- right. exists q. split; [by right|done].
        * intros [?|(q & [->|Hq]%elem_of_cons & ?)]; [by do 2 left| |].
          -- left. by right.
          -- right. by exists q.
      + rewrite Hname'. split.
        * intros [[?|?]|(q & Hq & ?)]; [by left| |].
          -- right. exists p. split; [by left|done].
          -- right. exists q. split; [by right|done].
        * intros [?|(q & [->|Hq]%elem_of_cons & ?)]; [by do 2 left| |].
          -- left. by right.
          -- right. by exists q. }
  destruct interface_peerings as [|a l].
  - destruct (external_bgp_peer peering_dict), (peer_engine peering_dict);
      simpl; intros [= <-]; split; auto.
  - specialize (Hfold (a :: l) false). destruct (foldl step false (a :: l)).
    + destruct (external_bgp_peer peering_dict), (peer_engine peering_dict);
        simpl; intros [= <-]; (split; [|done]); intros _;
        right; destruct Hfold as [[?|?] _]; done.
    + simpl. intros [= <-]. split; [done|].
      intros [?|Hex]; [done|]. destruct Hfold as [_ Hf]. apply Hf. by right.
Qed.

(** C7 at the failing input: the peering A is attached to 10.0.0.0/24 and
    so is a second peering B; applying the entry for A on 10.0.0.0/24
    attaches A again and reports a change. *)
Theorem peering_attached_again :
  update_bgp_peering
    (CacheOps.add_entry smc_elements CacheOps.new "external_bgp_peer" "bgppeer")
    "A" (peering_on "10.0.0.0/24")
    [ {| att_net_ip := "10.0.0.0/24"; att_peering_name := "A" |};
      {| att_net_ip := "10.0.0.0/24"; att_peering_name := "B" |} ]
  = Ok ([Add_bgp_peering "A" (Some "http://smc/external_bgp_peer/7")
           (Some "10.0.0.0/24")], true).
Proof. vm_compute. reflexivity. Qed.

(** The other way round: A is attached to another network only, and the
    entry for A on 10.0.0.0/24 attaches nothing. *)
Example peering_not_attached :
  update_bgp_peering
    (CacheOps.add_entry smc_elements CacheOps.new "external_bgp_peer" "bgppeer")
    "A" (peering_on "10.0.0.0/24")
    [ {| att_net_ip := "192.168.9.0/24"; att_peering_name := "A" |} ]
  = Ok ([], false).
Proof. vm_compute. reflexivity. Qed.

(** ** Deleting a VLAN *)

(** A VLAN that still has addresses cannot be deleted: the name the
    filter compares with is bound on the other branch only. *)
Lemma delete_vlan_with_addresses (self : remote_vlan)
    (vlanInterfaces : list remote_vlan) :
  addresses self ≠ [] → vlanInterfaces ≠ [] →
  delete_vlan_interface self vlanInterfaces
  = Raise (UnboundLocalError "vlan_str").
Proof.
  intros Ha Hv. unfold delete_vlan_interface.
  rewrite bool_decide_eq_false_2 by done. simpl.
  by destruct vlanInterfaces.
Qed.

Lemma delete_vlan_without_addresses (self : remote_vlan)
    (vlanInterfaces : list remote_vlan) :
  addresses self = [] →
  delete_vlan_interface self vlanInterfaces
  = Ok ((true, false),
        filter (λ vlan, vlan_interface_id vlan ≠ vlan_interface_id self)
          vlanInterfaces).
Proof.
  intros Ha. unfold delete_vlan_interface.
  rewrite bool_decide_eq_true_2 by done. simpl.
  induction vlanInterfaces as [|v l IH]; [done|].
  simpl in *. destruct (filterM _ l) as [kept|e]; [|done].
  injection IH as ->. simpl. rewrite filter_cons.
  destruct (String.eqb_spec (vlan_interface_id v) (vlan_interface_id self));
    simpl; by case_decide.
Qed.

(** C5 at the failing input: interface 2 has the VLANs 3 and 4 on the
    engine, VLAN 4 with an address; the playbook keeps VLAN 3 only.  The
    step for VLAN 4 raises instead of deleting it, whatever the two
    builders do. *)
Theorem vlan_with_addresses_not_deleted
    (create_cluster_vlan_interface :
       YamlInterface → list remote_vlan → result (bool * list remote_vlan))
    (update_cluster_vlan_interface :
       remote_vlan → YamlInterface → list remote_vlan
       → result ((bool * bool) * list remote_vlan)) :
  Interfaces.get_vlan [vlan_2_3] (PStr "4") = Ok None
  ∧ reconcile_vlan create_cluster_vlan_interface update_cluster_vlan_interface
      [vlan_2_3] vlan_2_4_addressed [vlan_2_3_empty; vlan_2_4_addressed]
    = Raise (UnboundLocalError "vlan_str")
  ∧ reconcile_vlans create_cluster_vlan_interface update_cluster_vlan_interface
      [vlan_2_3] [vlan_2_4_addressed] false []
      [vlan_2_3_empty; vlan_2_4_addressed]
    = Raise (UnboundLocalError "vlan_str")
  ∧ update_vlan_collection create_cluster_vlan_interface
      (λ _ _ data, Ok ((false, false), data))
      [route_vlan_2_4] [vlan_2_3] "2" [vlan_2_4_addressed]
    = Raise (UnboundLocalError "vlan_str").
Proof. split_and!; vm_compute; reflexivity. Qed.

(** The same VLAN without addresses is deleted, the interface is updated
    and no route is cleaned up. *)
Example vlan_without_addresses_deleted
    (create_cluster_vlan_interface :
       YamlInterface → list remote_vlan → result (bool * list remote_vlan)) :
  update_vlan_collection create_cluster_vlan_interface
    (λ _ _ data, Ok ((false, false), data))
    [route_vlan_2_4] [vlan_2_3] "2" [vlan_2_3_addressed; vlan_2_4_empty]
  = Ok ([Interface_update "2"], true).
Proof. vm_compute. reflexivity. Qed.
